(** * Campus Bites order station: inventory, order ticket and checkout

    A shallow embedding of the order/inventory core of [restaurant_gui.py]:
    the classes [Product], [Inventory] and [Order], and the callbacks of
    [RestaurantApp] that drive them.

    Python objects are shared and mutated in place: the products an order line
    holds are the very objects of the inventory list.  The embedding keeps
    that: a [heap] maps object references to [Product] records, and both the
    inventory list and the order lines hold references. *)

From Stdlib Require Import ZArith List Bool Lia Ascii String.
From Stdlib Require Import Floats.PrimFloat Floats.SpecFloat Floats.FloatOps.
Import ListNotations.

Set Warnings "-inexact-float".

Local Open Scope Z_scope.

(** ** Python builtins used by the program *)

Module Py.

(** [float(n)] for an [int]: the nearest binary64 value, ties to even;
    [None] stands for [OverflowError] (the rounded value is not finite). *)
Definition int_to_float (n : Z) : option float :=
  let f := SF2Prim (binary_normalize prec emax n 0 false) in
  if PrimFloat.is_infinity f then None else Some f.

(** [x * n] with [x] a float and [n] an int: [n] is converted first. *)
Definition float_mul_int (x : float) (n : Z) : option float :=
  match int_to_float n with
  | Some f => Some (PrimFloat.mul x f)
  | None => None
  end.

(** [sum(xs)] on floats as CPython computes it up to version 3.11:
    left-to-right addition starting from [0]. *)
Definition sum (xs : list float) : float :=
  fold_left PrimFloat.add xs 0%float.

(** The builtin [sum] adds floats in one of two ways, by the interpreter
    that runs the program: plain left-to-right addition (CPython up to
    3.11), or with a compensation term carried along (CPython 3.12 and
    later). *)
Inductive summation : Set := LeftToRight | Compensated.

(** One float [x] added to the running sum [f] and its compensation [c]:
    [t = f + x; c += (f - t) + x if fabs(f) >= fabs(x) else (x - t) + f;
    f = t]. *)
Definition compensated_add (f c x : float) : float * float :=
  let t := PrimFloat.add f x in
  if PrimFloat.leb (PrimFloat.abs x) (PrimFloat.abs f)
  then (t, PrimFloat.add c (PrimFloat.add (PrimFloat.sub f t) x))
  else (t, PrimFloat.add c (PrimFloat.add (PrimFloat.sub x t) f)).

(** The value returned when the items are exhausted: the compensation is
    added when it is neither zero nor infinite nor a NaN. *)
Definition compensated_end (f c : float) : float :=
  if negb (PrimFloat.is_zero c) && PrimFloat.is_finite c
  then PrimFloat.add f c else f.

(** [sum(xs)] on floats as CPython computes it from version 3.12 on: the
    first item is added to the integer [0], the others with compensation. *)
Definition sum_compensated (xs : list float) : float :=
  match xs with
  | [] => 0%float
  | x :: rest =>
      let fc := fold_left (fun fc y => compensated_add (fst fc) (snd fc) y)
                          rest (PrimFloat.add 0 x, 0%float) in
      compensated_end (fst fc) (snd fc)
  end.

Definition sum_with (alg : summation) (xs : list float) : float :=
  match alg with
  | LeftToRight => sum xs
  | Compensated => sum_compensated xs
  end.

End Py.

(** ** Constants *)

Definition TAX_RATE : float := 0.07%float.

(** ** Data model *)

(** [class Product]: four attributes set by [__init__]. *)
Record Product : Set := mkProduct
  { id : Z; name : string; price : float; stock : Z }.

(** Object references and the object store. Every reference denotes an
    object, as in Python. *)
Definition ref : Set := nat.
Definition heap : Set := ref -> Product.

(** [p.stock = s] *)
Definition set_stock (h : heap) (p : ref) (s : Z) : heap :=
  fun r =>
    if Nat.eqb r p
    then mkProduct (id (h r)) (name (h r)) (price (h r)) s
    else h r.

(** ** [class Inventory]

    [products] is the list [self.products] of references. *)
Module Inventory.

Fixpoint get_product (h : heap) (products : list ref) (pid : Z) : option ref :=
  match products with
  | [] => None
  | p :: rest =>
      if id (h p) =? pid then Some p else get_product h rest pid
  end.

Definition get_stock (h : heap) (products : list ref) (pid : Z) : Z :=
  match get_product h products pid with
  | Some p => stock (h p)
  | None => 0
  end.

(** Returns the boolean result together with the store after the call. *)
Definition reduce_stock (h : heap) (products : list ref) (pid qty : Z)
  : bool * heap :=
  match get_product h products pid with
  | None => (false, h)
  | Some p =>
      if qty <=? 0 then (false, h)
      else if stock (h p) >=? qty
           then (true, set_stock h p (stock (h p) - qty))
           else (false, h)
  end.

End Inventory.

(** ** [class Order]

    [items] is the list [self.items] of pairs (product reference, quantity). *)
Module Order.

Definition line : Set := (ref * Z)%type.

Definition add_item (items : list line) (product : ref) (qty : Z) : list line :=
  items ++ [(product, qty)].

Definition remove_last_item (items : list line) : list line :=
  match items with
  | [] => items
  | _ :: _ => removelast items
  end.

(** The generator [p.price * q for p, q in self.items] as [sum] consumes
    it, one product at a time, when [sum] adds from left to right: [acc] is
    the running sum; [None] is an [OverflowError] raised by one of the
    products, which ends the call. *)
Fixpoint total_from (h : heap) (acc : float) (items : list line) : option float :=
  match items with
  | [] => Some acc
  | (p, q) :: rest =>
      match Py.float_mul_int (price (h p)) q with
      | Some x => total_from h (PrimFloat.add acc x) rest
      | None => None
      end
  end.

(** [total()] under left-to-right summation.  Whether the call raises is
    the same under compensated summation; the value is the same for tickets
    of one line, and [total_with] below gives it for both. *)
Definition total (h : heap) (items : list line) : option float :=
  total_from h 0%float items.

(** The same generator consumed by the compensating [sum]: [f] is the
    running sum, [c] its compensation. *)
Fixpoint total_compensated_from (h : heap) (f c : float) (items : list line)
  : option float :=
  match items with
  | [] => Some (Py.compensated_end f c)
  | (p, q) :: rest =>
      match Py.float_mul_int (price (h p)) q with
      | Some x =>
          let fc := Py.compensated_add f c x in
          total_compensated_from h (fst fc) (snd fc) rest
      | None => None
      end
  end.

Definition total_compensated (h : heap) (items : list line) : option float :=
  match items with
  | [] => Some 0%float
  | (p, q) :: rest =>
      match Py.float_mul_int (price (h p)) q with
      | Some x => total_compensated_from h (PrimFloat.add 0 x) 0%float rest
      | None => None
      end
  end.

(** [total()] on an interpreter whose [sum] adds by [alg]. *)
Definition total_with (alg : Py.summation) (h : heap) (items : list line)
  : option float :=
  match alg with
  | Py.LeftToRight => total h items
  | Py.Compensated => total_compensated h items
  end.

End Order.

(** ** [class RestaurantApp]: the state the callbacks read and write *)

Record App : Set := mkApp
  { store : heap;                     (* the Product objects *)
    inventory : list ref;             (* self.inventory.products *)
    order : list Order.line;          (* self.order.items *)
    menu_selection : option Z;        (* self.menu_tree.selection(): rows are
                                         keyed by str(p.id), so the selected
                                         row, if any, is read back as an id *)
    qty_var : string }.               (* text of the quantity entry *)

Definition with_store (app : App) (h : heap) : App :=
  mkApp h (inventory app) (order app) (menu_selection app) (qty_var app).

Definition with_order (app : App) (items : list Order.line) : App :=
  mkApp (store app) (inventory app) items (menu_selection app) (qty_var app).

(** Which message box a callback ended on. *)
Inductive add_result : Set :=
| NothingSelected                     (* "Nothing selected" *)
| ProductNotFound                     (* "Could not find the selected product." *)
| NotWholeNumber                      (* "Bad quantity": int() raised ValueError *)
| NotAtLeastOne                       (* "Bad quantity": qty <= 0 *)
| LineAdded.

Inductive checkout_result : Set :=
| EmptyOrder                          (* "Empty order" *)
| TotalOverflow                       (* OverflowError out of self.order.total() *)
| Declined                            (* the operator answered No *)
| FailedAtLine (index : nat) (itemId requestedQty availableQty : Z)
                                      (* "Stock low", then break *)
| CommittedFull.                      (* "Success", the for loop's else branch *)

(** One call [self.inventory.reduce_stock(pid, qty)], as recorded in the
    trace of a checkout. *)
Definition stock_call : Set := (Z * Z)%type.

Module RestaurantApp.

Section Callbacks.

(** The builtin [int] applied to the quantity text; [None] stands for
    [ValueError]. *)
Variable py_int : string -> option Z.

Definition add_to_order (app : App) : App * add_result :=
  match menu_selection app with
  | None => (app, NothingSelected)
  | Some pid =>
      match Inventory.get_product (store app) (inventory app) pid with
      | None => (app, ProductNotFound)
      | Some product =>
          match py_int (qty_var app) with
          | None => (app, NotWholeNumber)
          | Some qty =>
              if qty <=? 0 then (app, NotAtLeastOne)
              else (with_order app (Order.add_item (order app) product qty),
                    LineAdded)
          end
      end
  end.

End Callbacks.

Definition _on_remove_last (app : App) : App :=
  with_order app (Order.remove_last_item (order app)).

(** The three lines [subtotal = self.order.total()], [tax = subtotal *
    TAX_RATE], [total = subtotal + tax] that [update_order_summary],
    [_on_checkout] and [Order.summary] each start with, the constant left
    open as [rate], on an interpreter whose [sum] adds by [alg]. *)
Definition totals_with_tax (alg : Py.summation) (rate : float) (h : heap)
           (items : list Order.line)
  : option (float * float * float) :=
  match Order.total_with alg h items with
  | None => None
  | Some subtotal =>
      let tax := PrimFloat.mul subtotal rate in
      let total := PrimFloat.add subtotal tax in
      Some (subtotal, tax, total)
  end.

(** The values behind the three labels, before they are formatted with
    two decimals. *)
Definition update_order_summary (alg : Py.summation) (app : App)
  : option (float * float * float) :=
  totals_with_tax alg TAX_RATE (store app) (order app).

(** The [for p, q in self.order.items] loop of [_on_checkout].  Returns the
    store, and two records kept for the statements below: the calls made to
    [reduce_stock] in order, and the line the loop broke on with its
    position, counted from [idx] ([None]: the loop ran to its [else]
    branch). *)
Fixpoint checkout_loop (h : heap) (products : list ref)
         (items : list Order.line) (idx : nat)
  : heap * list stock_call * option (nat * Order.line) :=
  match items with
  | [] => (h, [], None)
  | (p, q) :: rest =>
      let pid := id (h p) in
      let (ok, h1) := Inventory.reduce_stock h products pid q in
      if ok then
        let '(h2, calls, stop) := checkout_loop h1 products rest (S idx) in
        (h2, (pid, q) :: calls, stop)
      else (h1, [(pid, q)], Some (idx, (p, q)))
  end.

(** [confirm] is the operator's answer to the "Confirm Checkout" dialog.
    The total computed before it only feeds the text of that dialog, but
    computing it can raise; whether it does is the same however [sum]
    adds. *)
Definition _on_checkout (confirm : bool) (app : App)
  : App * list stock_call * checkout_result :=
  match order app with
  | [] => (app, [], EmptyOrder)
  | _ :: _ =>
      match Order.total (store app) (order app) with
      | None => (app, [], TotalOverflow)
      | Some _ =>
          if negb confirm then (app, [], Declined)
          else
            let '(h, calls, stop) :=
              checkout_loop (store app) (inventory app) (order app) 1 in
            match stop with
            | Some (k, (p, q)) =>
                (with_store app h, calls,
                 FailedAtLine k (id (h p)) q
                   (Inventory.get_stock h (inventory app) (id (h p))))
            | None =>
                (with_order (with_store app h) [], calls, CommittedFull)
            end
      end
  end.

End RestaurantApp.

(** ** Vocabulary of the specification *)

(** The decrements of [lines] applied one after the other, in order:
    [Some] of the resulting store when every call returns [True], [None] as
    soon as one returns [False]. *)
Fixpoint decrement_all (h : heap) (products : list ref)
         (lines : list Order.line) : option heap :=
  match lines with
  | [] => Some h
  | (p, q) :: rest =>
      match Inventory.reduce_stock h products (id (h p)) q with
      | (true, h1) => decrement_all h1 products rest
      | (false, _) => None
      end
  end.

(** The catalog item a line stands for: the object [get_product] finds for
    the id of the line's product. *)
Definition catalog_item (h : heap) (products : list ref) (l : Order.line)
  : option ref :=
  Inventory.get_product h products (id (h (fst l))).

(** The quantity that [lines] ask of the catalog item [r]. *)
Fixpoint demand (h : heap) (products : list ref)
         (lines : list Order.line) (r : ref) : Z :=
  match lines with
  | [] => 0
  | l :: rest =>
      match catalog_item h products l with
      | Some r' => if Nat.eqb r r' then snd l + demand h products rest r
                   else demand h products rest r
      | None => demand h products rest r
      end
  end.

(** The arguments [reduce_stock] is called with for each line. *)
Definition calls_of (h : heap) (lines : list Order.line) : list stock_call :=
  map (fun l => (id (h (fst l)), snd l)) lines.

(** A sequence of [reduce_stock] calls, whatever their results. *)
Fixpoint run_calls (h : heap) (products : list ref)
         (calls : list stock_call) : heap :=
  match calls with
  | [] => h
  | (pid, qty) :: rest =>
      run_calls (snd (Inventory.reduce_stock h products pid qty)) products rest
  end.

(** No item of the catalog has a negative stock. *)
Definition stock_nonneg (h : heap) (products : list ref) : Prop :=
  forall p, In p products -> 0 <= stock (h p).

(** Two stores that differ at most in stock counts. *)
Definition same_but_stock (h h' : heap) : Prop :=
  forall r, id (h' r) = id (h r) /\ name (h' r) = name (h r)
            /\ price (h' r) = price (h r).

(** The amounts [p.price * q] of the lines, when all of them are finite. *)
Fixpoint line_amounts (h : heap) (items : list Order.line) : option (list float) :=
  match items with
  | [] => Some []
  | (p, q) :: rest =>
      match Py.float_mul_int (price (h p)) q, line_amounts h rest with
      | Some x, Some xs => Some (x :: xs)
      | _, _ => None
      end
  end.

(** ** Sample data for the examples *)

Definition item_X : Product := mkProduct 1 "Soup" 10%float 5.
Definition item_Y : Product := mkProduct 2 "Cola" 2.5%float 1.
Definition item_X' : Product := mkProduct 1 "Soup (old)" 4%float 9.

(** Object 0 is X, object 1 is Y, every other object is a second product
    with X's id.  The counter below lists X and Y only; the lists with a
    duplicate id are written out where they are used. *)
Definition sample_store : heap :=
  fun r => match r with O => item_X | S O => item_Y | _ => item_X' end.

Definition sample_app (items : list Order.line) (sel : option Z) (qty : string)
  : App :=
  mkApp sample_store [0%nat; 1%nat] items sel qty.

(** The decimal digits of [s] read after the value [acc]; [None] when a
    character is not a digit. *)
Fixpoint digits_value (acc : Z) (s : string) : option Z :=
  match s with
  | EmptyString => Some acc
  | String c s' =>
      let n := Ascii.nat_of_ascii c in
      if ((48 <=? n) && (n <=? 57))%nat
      then digits_value (10 * acc + Z.of_nat (n - 48)) s'
      else None
  end.

(** The reading of the quantity text in the examples: it agrees with [int]
    on every text made of an optional sign and at least one digit, and on
    the texts that hold a letter or hold nothing.  ([int] also accepts
    blanks around the numeral and underscores between digits; the examples
    use no such text.) *)
Definition sample_int (s : string) : option Z :=
  match s with
  | EmptyString => None
  | String "-"%char EmptyString | String "+"%char EmptyString => None
  | String "-"%char s' => option_map Z.opp (digits_value 0 s')
  | String "+"%char s' => digits_value 0 s'
  | _ => digits_value 0 s
  end.

(** The sample store after three of X have been sold. *)
Definition sample_store_sold : heap := set_stock sample_store 0%nat 2.

(** A counter where nothing is selected and the quantity entry reads "2". *)
Definition sample_counter (items : list Order.line) : App :=
  sample_app items None "2".

(** ** The rest of the program *)

Definition LOW_STOCK_THRESHOLD : Z := 3.

(** The two placeholders of [class Inventory]. *)
Module InventoryFile.

(** [load_products]: assigns the empty list to [self.products]. *)
Definition load_products (products : list ref) : list ref := [].

(** [save_products]: [pass]. *)
Definition save_products (products : list ref) : list ref := products.

End InventoryFile.

(** [x in s] for two strings: [x] occurs in [s] as a substring. *)
Fixpoint str_in (x s : string) : bool :=
  if String.prefix x s then true
  else match s with
       | EmptyString => false
       | String _ s' => str_in x s'
       end.

(** [any(x in name for x in words)] *)
Definition any_in (words : list string) (name : string) : bool :=
  existsb (fun x => str_in x name) words.

(** The dict [self.pid_to_category]; [d k] is [d.get(k)]. *)
Definition category_dict : Set := Z -> option string.

Definition dict_empty : category_dict := fun _ => None.

(** [d[k] = v] *)
Definition dict_set (d : category_dict) (k : Z) (v : string) : category_dict :=
  fun k' => if k' =? k then Some v else d k'.

(** The state of the whole window: the counter, the category table and
    the category button last pressed ([None]: "All"). *)
Record Gui : Set := mkGui
  { counter : App;
    pid_to_category : category_dict;
    active_category : option string }.

(** [refresh_products] deletes every row of the menu before it inserts
    the rows again, so no row is selected afterwards. *)
Definition clear_menu_selection (app : App) : App :=
  mkApp (store app) (inventory app) (order app) None (qty_var app).

(** What the operator can do at the window. *)
Inductive event : Set :=
| TypeQuantity (text : string)          (* edit the quantity entry *)
| SelectMenuRow (pid : Z)               (* click a row of the menu *)
| ClickAdd                              (* "Add to Order" *)
| ClickRemoveLast                       (* "Remove Last Item" *)
| ClickCheckout (answer : bool)         (* "Checkout" and the Yes/No dialog *)
| ClickCancel (answer : bool)           (* "Cancel Order" and the Yes/No dialog *)
| ClickLoadMenu                         (* "Load Menu" *)
| ClickUpdateStock (selected : option Z) (answer : option Z)
                                        (* "Update Stock" with the row selected
                                           in the stock table and the dialog's
                                           answer ([None]: cancelled) *)
| ClickCategory (label : option string). (* a category button *)

Module Window.

Section Builtins.

(** The builtins [int] (on the quantity text; [None] is [ValueError]) and
    [str.lower]. *)
Variable py_int : string -> option Z.
Variable lower : string -> string.

(** The body of the loop of [_rebuild_categories]: the category guessed
    from a product's name. *)
Definition category_of (product_name : string) : string :=
  let name := lower product_name in
  if any_in ["soup"; "salad"; "starter"]%string name
  then "Starters"%string
  else if any_in ["tea"; "cola"; "coffee"; "water"; "drink"]%string name
  then "Drinks"%string
  else if any_in ["cake"; "pie"; "ice cream"; "dessert"]%string name
  then "Desserts"%string
  else "Mains"%string.

(** The loop [for p in self.inventory.products] of [_rebuild_categories],
    from the table [d] built so far. *)
Fixpoint rebuild_from (h : heap) (d : category_dict) (products : list ref)
  : category_dict :=
  match products with
  | [] => d
  | p :: rest =>
      rebuild_from h (dict_set d (id (h p)) (category_of (name (h p)))) rest
  end.

Definition _rebuild_categories (h : heap) (products : list ref)
  : category_dict :=
  rebuild_from h dict_empty products.

(** The test that makes the loop of [refresh_products] skip a product:
    [self.active_category and self.pid_to_category.get(p.id) !=
    self.active_category]. *)
Definition skipped (d : category_dict) (active : option string)
           (h : heap) (p : ref) : bool :=
  match active with
  | None => false
  | Some c =>
      if String.eqb c ""%string then false
      else match d (id (h p)) with
           | Some c' => negb (String.eqb c' c)
           | None => true
           end
  end.

(** [tree.insert("", tk.END, iid=str(p.id), ...)] for each product of
    [ps] in turn, after the rows [rows] already in the tree.  A row is keyed
    by its product's id, and Tk raises [TclError] when the key is already in
    the tree: [None]. *)
Fixpoint insert_rows (h : heap) (rows ps : list ref) : option (list ref) :=
  match ps with
  | [] => Some rows
  | p :: rest =>
      if existsb (fun r => id (h r) =? id (h p)) rows then None
      else insert_rows h (rows ++ [p]) rest
  end.

(** [refresh_products]: the products shown in the menu, in order, once
    the old rows are deleted and those not skipped are inserted. *)
Definition refresh_products (g : Gui) : option (list ref) :=
  insert_rows (store (counter g)) []
    (filter (fun p => negb (skipped (pid_to_category g) (active_category g)
                                    (store (counter g)) p))
            (inventory (counter g))).

(** [refresh_stock_display]: one row per product, with whether it carries
    the tag ["low"]. *)
Definition refresh_stock_display (g : Gui) : option (list (ref * bool)) :=
  option_map
    (map (fun p => (p, stock (store (counter g) p) <=? LOW_STOCK_THRESHOLD)))
    (insert_rows (store (counter g)) [] (inventory (counter g))).

Definition _on_category (category_name : option string) (g : Gui) : Gui :=
  mkGui (clear_menu_selection (counter g)) (pid_to_category g) category_name.

Definition _on_cancel_order (confirm : bool) (app : App) : App :=
  match order app with
  | [] => app
  | _ :: _ => if confirm then with_order app [] else app
  end.

Definition _on_load_menu (g : Gui) : Gui :=
  let products := InventoryFile.load_products (inventory (counter g)) in
  let app := mkApp (store (counter g)) products (order (counter g))
                   None (qty_var (counter g)) in
  mkGui app (_rebuild_categories (store app) products) (active_category g).

(** [selected] is the id of the row selected in the stock table, if any;
    [answer] is what [simpledialog.askinteger] returns. *)
Definition _on_update_stock (selected answer : option Z) (app : App) : App :=
  match selected with
  | None => app
  | Some pid =>
      match Inventory.get_product (store app) (inventory app) pid with
      | None => app
      | Some product =>
          match answer with
          | None => app
          | Some new_stock =>
              clear_menu_selection
                (with_store app (set_stock (store app) product new_stock))
          end
      end
  end.

(** The callback an event runs, as far as the state goes: the refreshes
    that end a callback come after its last assignment, so that a
    [TclError] out of them undoes nothing.  After a checkout that commits,
    the refreshes of its [else] branch redraw the menu. *)
Definition step (g : Gui) (e : event) : Gui :=
  let app := counter g in
  let on_counter app' := mkGui app' (pid_to_category g) (active_category g) in
  match e with
  | TypeQuantity text =>
      on_counter (mkApp (store app) (inventory app) (order app)
                        (menu_selection app) text)
  | SelectMenuRow pid =>
      on_counter (mkApp (store app) (inventory app) (order app)
                        (Some pid) (qty_var app))
  | ClickAdd => on_counter (fst (RestaurantApp.add_to_order py_int app))
  | ClickRemoveLast => on_counter (RestaurantApp._on_remove_last app)
  | ClickCheckout answer =>
      let '(app', _, result) := RestaurantApp._on_checkout answer app in
      match result with
      | CommittedFull => on_counter (clear_menu_selection app')
      | _ => on_counter app'
      end
  | ClickCancel answer => on_counter (_on_cancel_order answer app)
  | ClickLoadMenu => _on_load_menu g
  | ClickUpdateStock selected answer =>
      on_counter (_on_update_stock selected answer app)
  | ClickCategory label => _on_category label g
  end.

(** The window after a sequence of events. *)
Definition run (g : Gui) (events : list event) : Gui :=
  fold_left step events g.

End Builtins.

End Window.

(** The answers [askinteger(..., minvalue=0)] can give: none below zero. *)
Definition answer_allowed (e : event) : Prop :=
  match e with
  | ClickUpdateStock _ (Some new_stock) => 0 <= new_stock
  | _ => True
  end.

(** No two products of the list carry the same id. *)
Definition distinct_ids (h : heap) (products : list ref) : Prop :=
  NoDup (map (fun p => id (h p)) products).

(** The two events whose callbacks assign to [stock]. *)
Definition changes_stock (e : event) : bool :=
  match e with
  | ClickCheckout _ | ClickUpdateStock _ _ => true
  | _ => false
  end.

(** Every line of the ticket asks for at least one. *)
Definition quantities_positive (items : list Order.line) : Prop :=
  Forall (fun l => 0 < snd l) items.

(** [str.lower] on the letters A to Z, for the examples. *)
Fixpoint ascii_lower (s : string) : string :=
  match s with
  | EmptyString => EmptyString
  | String c s' =>
      let n := Ascii.nat_of_ascii c in
      String (if ((65 <=? n) && (n <=? 90))%nat
              then Ascii.ascii_of_nat (n + 32) else c)
             (ascii_lower s')
  end.

(** Three items at 0.10, 0.20 and 0.30, every other object at 0.30. *)
Definition dime_store : heap :=
  fun r =>
    match r with
    | 0%nat => mkProduct 1 "Tea" 0.1%float 9
    | 1%nat => mkProduct 2 "Water" 0.2%float 9
    | _ => mkProduct 3 "Cola" 0.3%float 9
    end.

(** A store with an id used twice: objects 0 and 2 both carry id 1. *)
Definition menu_store : heap :=
  fun r =>
    match r with
    | 0%nat => mkProduct 1 "Tomato Soup" 4.5%float 8
    | 1%nat => mkProduct 2 "Cola" 2%float 2
    | 2%nat => mkProduct 1 "Cheesecake" 5%float 6
    | _ => mkProduct 4 "Steak" 18%float 3
    end.

Definition sample_gui (items : list Order.line) : Gui :=
  mkGui (sample_counter items)
        (Window._rebuild_categories ascii_lower sample_store [0%nat; 1%nat])
        None.

(** * Properties *)

(** ** The store *)

Lemma set_stock_same (h : heap) (p : ref) (s : Z) :
  stock (set_stock h p s p) = s.
Proof. unfold set_stock. now rewrite Nat.eqb_refl. Qed.

Lemma set_stock_other (h : heap) (p r : ref) (s : Z) :
  r <> p -> set_stock h p s r = h r.
Proof.
  intros Hne. unfold set_stock.
  destruct (Nat.eqb_spec r p) as [E | _]; [contradiction | reflexivity].
Qed.

Lemma set_stock_same_but_stock (h : heap) (p : ref) (s : Z) :
  same_but_stock h (set_stock h p s).
Proof.
  intros r. unfold set_stock. destruct (Nat.eqb r p); simpl; auto.
Qed.

Lemma same_but_stock_refl (h : heap) : same_but_stock h h.
Proof. intros r; auto. Qed.

Lemma same_but_stock_trans (h1 h2 h3 : heap) :
  same_but_stock h1 h2 -> same_but_stock h2 h3 -> same_but_stock h1 h3.
Proof.
  intros H12 H23 r.
  destruct (H12 r) as (a & b & c), (H23 r) as (a' & b' & c').
  repeat split; congruence.
Qed.

(** ** [Inventory.get_product] *)

Lemma get_product_Some (h : heap) (products : list ref) (pid : Z) (p : ref) :
  Inventory.get_product h products pid = Some p ->
  In p products /\ id (h p) = pid.
Proof.
  induction products as [| a rest IH]; simpl; [discriminate |].
  destruct (Z.eqb_spec (id (h a)) pid) as [E | _].
  - intros [= <-]. auto.
  - intros H. destruct (IH H). auto.
Qed.


Lemma get_product_first (h : heap) (pre rest : list ref) (a : ref) (pid : Z) :
  (forall b, In b pre -> id (h b) <> pid) ->
  id (h a) = pid ->
  Inventory.get_product h (pre ++ a :: rest) pid = Some a.
Proof.
  intros Hpre Ha. induction pre as [| b pre IH]; simpl.
  - apply Z.eqb_eq in Ha. now rewrite Ha.
  - destruct (Z.eqb_spec (id (h b)) pid) as [E | _].
    + now elim (Hpre b (or_introl eq_refl)).
    + apply IH. intros c Hc. apply Hpre. now right.
Qed.

(** The lookup reads nothing but ids. *)
Lemma get_product_ids (h h' : heap) (products : list ref) (pid : Z) :
  (forall r, In r products -> id (h' r) = id (h r)) ->
  Inventory.get_product h' products pid = Inventory.get_product h products pid.
Proof.
  induction products as [| a rest IH]; simpl; intros Hid; [reflexivity |].
  rewrite (Hid a (or_introl eq_refl)).
  destruct (id (h a) =? pid); [reflexivity |].
  apply IH. intros r Hr. apply Hid. now right.
Qed.

(** ** [Inventory.reduce_stock] *)

(** The two ways a call can end. *)
Lemma reduce_stock_cases (h : heap) (products : list ref) (pid qty : Z) :
  (Inventory.reduce_stock h products pid qty = (false, h) /\
   (Inventory.get_product h products pid = None \/ qty <= 0 \/
    Inventory.get_stock h products pid < qty))
  \/
  (exists p, Inventory.get_product h products pid = Some p /\
             0 < qty <= stock (h p) /\
             Inventory.reduce_stock h products pid qty
             = (true, set_stock h p (stock (h p) - qty))).
Proof.
  unfold Inventory.reduce_stock, Inventory.get_stock.
  destruct (Inventory.get_product h products pid) as [p |]; [| left; auto].
  destruct (Z.leb_spec qty 0); [left; auto |].
  destruct (Z.geb_spec (stock (h p)) qty).
  - right. exists p. repeat split; auto; lia.
  - left. split; auto.
Qed.

Lemma reduce_stock_same_but_stock (h : heap) (products : list ref) (pid qty : Z) :
  same_but_stock h (snd (Inventory.reduce_stock h products pid qty)).
Proof.
  destruct (reduce_stock_cases h products pid qty) as [[-> _] | (p & _ & _ & ->)];
    simpl; [apply same_but_stock_refl | apply set_stock_same_but_stock].
Qed.


Example reduce_stock_enough :
  let (ok, h') := Inventory.reduce_stock sample_store [0; 1; 2]%nat 1 3 in
  (ok, stock (h' 0%nat), stock (h' 1%nat), stock (h' 2%nat)) = (true, 2, 1, 9).
Proof. reflexivity. Qed.

Example reduce_stock_short :
  let (ok, h') := Inventory.reduce_stock sample_store [0; 1; 2]%nat 2 2 in
  (ok, stock (h' 0%nat), stock (h' 1%nat), stock (h' 2%nat)) = (false, 5, 1, 9).
Proof. reflexivity. Qed.

(** ** Stock stays non-negative *)

Lemma reduce_stock_nonneg (h : heap) (products : list ref) (pid qty : Z) :
  stock_nonneg h products ->
  stock_nonneg (snd (Inventory.reduce_stock h products pid qty)) products.
Proof.
  intros Hinv.
  destruct (reduce_stock_cases h products pid qty)
    as [[-> _] | (p & _ & Hq & ->)]; simpl; [exact Hinv |].
  intros r Hr. destruct (Nat.eq_dec r p) as [-> | Hne].
  - rewrite set_stock_same. lia.
  - rewrite set_stock_other by exact Hne. now apply Hinv.
Qed.

Lemma run_calls_nonneg (products : list ref) (calls : list stock_call) :
  forall h, stock_nonneg h products ->
            stock_nonneg (run_calls h products calls) products.
Proof.
  induction calls as [| [pid qty] rest IH]; simpl; intros h Hinv.
  - exact Hinv.
  - apply IH. now apply reduce_stock_nonneg.
Qed.

(** C3. Starting from a catalog without negative stock, no sequence of
    [reduce_stock] calls makes any stock negative, whatever prefix of the
    sequence has run; and a call that would take a stock below zero returns
    [False] and changes nothing. *)
Theorem stock_never_negative (h : heap) (products : list ref)
        (calls : list stock_call) :
  stock_nonneg h products ->
  (forall n, stock_nonneg (run_calls h products (firstn n calls)) products)
  /\ (forall h0 pid qty p,
         Inventory.get_product h0 products pid = Some p ->
         stock (h0 p) - qty < 0 ->
         Inventory.reduce_stock h0 products pid qty = (false, h0)).
Proof.
  intros Hinv. split.
  - intros n. now apply run_calls_nonneg.
  - intros h0 pid qty p Hp Hneg.
    destruct (reduce_stock_cases h0 products pid qty)
      as [[E _] | (p' & Hp' & Hq & _)]; [exact E |].
    rewrite Hp in Hp'. injection Hp' as <-. lia.
Qed.

Lemma stock_never_negative_witness :
  (forall n,
      stock_nonneg
        (run_calls sample_store [0; 1; 2]%nat
                   (firstn n [(1, 3); (2, 2); (1, 3); (7, 1); (1, -2)]))
        [0; 1; 2]%nat)
  /\ Inventory.reduce_stock sample_store [0; 1; 2]%nat 2 2
     = (false, sample_store).
Proof.
  assert (H0 : stock_nonneg sample_store [0; 1; 2]%nat).
  { intros p [<- | [<- | [<- | []]]]; simpl; lia. }
  destruct (stock_never_negative sample_store [0; 1; 2]%nat
              [(1, 3); (2, 2); (1, 3); (7, 1); (1, -2)] H0) as [Hseq Hfail].
  split; [exact Hseq |].
  apply (Hfail sample_store 2 2 1%nat); [reflexivity | simpl; lia].
Defined.

(** ** Duplicate ids in the inventory list *)

(** What a call answers and does is fixed by the list up to the first
    product carrying the id: neither the rest of the list nor any other
    object is looked at. *)
Lemma lookup_reads_prefix (h h2 : heap) (pre rest rest2 : list ref)
      (a : ref) (pid qty : Z) :
  (forall c, In c pre -> id (h c) <> pid) ->
  id (h a) = pid ->
  (forall c, In c pre \/ c = a -> h2 c = h c) ->
  Inventory.get_product h2 (pre ++ a :: rest2) pid = Some a
  /\ Inventory.get_stock h2 (pre ++ a :: rest2) pid
     = Inventory.get_stock h (pre ++ a :: rest) pid
  /\ fst (Inventory.reduce_stock h2 (pre ++ a :: rest2) pid qty)
     = fst (Inventory.reduce_stock h (pre ++ a :: rest) pid qty)
  /\ snd (Inventory.reduce_stock h2 (pre ++ a :: rest2) pid qty) a
     = snd (Inventory.reduce_stock h (pre ++ a :: rest) pid qty) a.
Proof.
  intros Hpre Ha Hagree.
  assert (E1 : Inventory.get_product h (pre ++ a :: rest) pid = Some a)
    by now apply get_product_first.
  assert (E2 : Inventory.get_product h2 (pre ++ a :: rest2) pid = Some a).
  { apply get_product_first.
    - intros c Hc. rewrite (Hagree c (or_introl Hc)). now apply Hpre.
    - now rewrite (Hagree a (or_intror eq_refl)). }
  assert (Ea : h2 a = h a) by (apply Hagree; now right).
  unfold Inventory.get_stock, Inventory.reduce_stock.
  rewrite E1, E2, Ea.
  repeat split.
  - destruct (qty <=? 0); [reflexivity |].
    destruct (stock (h a) >=? qty); reflexivity.
  - destruct (qty <=? 0); simpl; [exact Ea |].
    destruct (stock (h a) >=? qty); simpl; [| exact Ea].
    unfold set_stock. now rewrite Nat.eqb_refl, Ea.
Qed.

(** C10. When several products of the inventory list carry the same id,
    [get_product] answers the first of them in list order; [get_stock]
    reads that one and [reduce_stock] changes that one only: a later product
    [b] with the same id is left as it was, and nothing the three operations
    return depends on it or on anything else behind the first match. *)
Theorem first_of_duplicates_only (h : heap) (pre rest : list ref)
        (a b : ref) (pid qty : Z) :
  (forall c, In c pre -> id (h c) <> pid) ->
  id (h a) = pid ->
  In b rest -> id (h b) = pid -> b <> a ->
  Inventory.get_product h (pre ++ a :: rest) pid = Some a
  /\ Inventory.get_stock h (pre ++ a :: rest) pid = stock (h a)
  /\ snd (Inventory.reduce_stock h (pre ++ a :: rest) pid qty) b = h b
  /\ (forall r, r <> a ->
        snd (Inventory.reduce_stock h (pre ++ a :: rest) pid qty) r = h r)
  /\ (forall h2 rest2,
         (forall c, In c pre \/ c = a -> h2 c = h c) ->
         Inventory.get_product h2 (pre ++ a :: rest2) pid = Some a
         /\ Inventory.get_stock h2 (pre ++ a :: rest2) pid
            = Inventory.get_stock h (pre ++ a :: rest) pid
         /\ fst (Inventory.reduce_stock h2 (pre ++ a :: rest2) pid qty)
            = fst (Inventory.reduce_stock h (pre ++ a :: rest) pid qty)
         /\ snd (Inventory.reduce_stock h2 (pre ++ a :: rest2) pid qty) a
            = snd (Inventory.reduce_stock h (pre ++ a :: rest) pid qty) a).
Proof.
  intros Hpre Ha _ _ Hba.
  assert (E : Inventory.get_product h (pre ++ a :: rest) pid = Some a)
    by now apply get_product_first.
  assert (Hothers : forall r, r <> a ->
            snd (Inventory.reduce_stock h (pre ++ a :: rest) pid qty) r = h r).
  { intros r Hr.
    destruct (reduce_stock_cases h (pre ++ a :: rest) pid qty)
      as [[-> _] | (p & Hp & _ & ->)]; simpl; [reflexivity |].
    rewrite E in Hp. injection Hp as <-. now apply set_stock_other. }
  split; [exact E |].
  split; [unfold Inventory.get_stock; now rewrite E |].
  split; [now apply Hothers |].
  split; [exact Hothers |].
  intros h2 rest2 Hagree. now apply lookup_reads_prefix.
Qed.

Lemma first_of_duplicates_only_witness :
  Inventory.get_product sample_store [1; 0; 2; 3]%nat 1 = Some 0%nat
  /\ Inventory.get_stock sample_store [1; 0; 2; 3]%nat 1 = 5
  /\ snd (Inventory.reduce_stock sample_store [1; 0; 2; 3]%nat 1 4) 2%nat
     = item_X'.
Proof.
  destruct (first_of_duplicates_only sample_store [1%nat] [2; 3]%nat
              0%nat 2%nat 1 4) as (H1 & H2 & H3 & _).
  - intros c [<- | []]. simpl. lia.
  - reflexivity.
  - simpl. now left.
  - reflexivity.
  - lia.
  - repeat split; assumption.
Defined.

(** ** Successive decrements *)

Lemma catalog_item_ids (h h' : heap) (products : list ref) (l : Order.line) :
  same_but_stock h h' ->
  catalog_item h' products l = catalog_item h products l.
Proof.
  intros Hs. unfold catalog_item.
  destruct (Hs (fst l)) as (-> & _).
  apply get_product_ids. intros r _. apply Hs.
Qed.

Lemma demand_ids (h h' : heap) (products : list ref) (lines : list Order.line)
      (r : ref) :
  same_but_stock h h' ->
  demand h' products lines r = demand h products lines r.
Proof.
  intros Hs. induction lines as [| l rest IH]; simpl; [reflexivity |].
  rewrite (catalog_item_ids h h') by exact Hs. now rewrite IH.
Qed.

Lemma calls_of_ids (h h' : heap) (lines : list Order.line) :
  same_but_stock h h' -> calls_of h' lines = calls_of h lines.
Proof.
  intros Hs. unfold calls_of. apply map_ext.
  intros l. now destruct (Hs (fst l)) as (-> & _).
Qed.

(** One step of [decrement_all], read backwards. *)
Lemma decrement_all_cons (h h' : heap) (products : list ref)
      (p : ref) (q : Z) (rest : list Order.line) :
  decrement_all h products ((p, q) :: rest) = Some h' ->
  exists a,
    Inventory.get_product h products (id (h p)) = Some a
    /\ 0 < q <= stock (h a)
    /\ Inventory.reduce_stock h products (id (h p)) q
       = (true, set_stock h a (stock (h a) - q))
    /\ decrement_all (set_stock h a (stock (h a) - q)) products rest = Some h'.
Proof.
  simpl. intros H.
  destruct (reduce_stock_cases h products (id (h p)) q)
    as [[E _] | (a & Ha & Hq & E)]; rewrite E in H; [discriminate |].
  exists a. auto.
Qed.

Lemma decrement_all_same_but_stock (products : list ref)
      (lines : list Order.line) :
  forall h h', decrement_all h products lines = Some h' -> same_but_stock h h'.
Proof.
  induction lines as [| [p q] rest IH]; intros h h' H.
  - injection H as <-. apply same_but_stock_refl.
  - apply decrement_all_cons in H as (a & _ & _ & _ & H).
    eapply same_but_stock_trans; [apply set_stock_same_but_stock |].
    apply IH, H.
Qed.

(** Every decrement that succeeded is in the final store: each object's
    stock is its initial stock less what the lines asked of it. *)
Lemma decrement_all_stock (products : list ref) (lines : list Order.line) :
  forall h h',
    decrement_all h products lines = Some h' ->
    forall r, stock (h' r) = stock (h r) - demand h products lines r.
Proof.
  induction lines as [| [p q] rest IH]; intros h h' H r.
  - injection H as <-. simpl. lia.
  - apply decrement_all_cons in H as (a & Ha & _ & _ & H).
    rewrite (IH _ _ H r).
    rewrite (demand_ids h) by apply set_stock_same_but_stock.
    simpl demand. unfold catalog_item. simpl fst. simpl snd. rewrite Ha.
    destruct (Nat.eqb_spec r a) as [-> | Hne].
    + rewrite set_stock_same. lia.
    + now rewrite set_stock_other.
Qed.

(** When all decrements succeed, every line had an item of the catalog to
    draw from and asked for a positive quantity. *)
Lemma decrement_all_lines (products : list ref) (lines : list Order.line) :
  forall h h',
    decrement_all h products lines = Some h' ->
    forall l, In l lines ->
              0 < snd l /\
              exists a, catalog_item h products l = Some a /\ In a products.
Proof.
  induction lines as [| [p q] rest IH]; intros h h' H l Hin; [destruct Hin |].
  apply decrement_all_cons in H as (a & Ha & Hq & _ & H).
  destruct Hin as [<- | Hin].
  - split; [simpl; lia |]. exists a. split; [exact Ha |].
    now apply get_product_Some in Ha.
  - destruct (IH _ _ H l Hin) as (Hpos & b & Hb & Hbin).
    split; [exact Hpos |]. exists b. split; [| exact Hbin].
    now rewrite <- (catalog_item_ids h (set_stock h a (stock (h a) - q)))
      by apply set_stock_same_but_stock.
Qed.

(** ** The checkout loop *)

Lemma checkout_loop_all (products : list ref) (lines : list Order.line) :
  forall h h' idx,
    decrement_all h products lines = Some h' ->
    RestaurantApp.checkout_loop h products lines idx
    = (h', calls_of h lines, None).
Proof.
  induction lines as [| [p q] rest IH]; intros h h' idx H.
  - injection H as <-. reflexivity.
  - apply decrement_all_cons in H as (a & _ & _ & E & H).
    simpl. rewrite E, (IH _ _ (S idx) H).
    now rewrite (calls_of_ids h) by apply set_stock_same_but_stock.
Qed.

Lemma checkout_loop_break (products : list ref) (pre post : list Order.line)
      (p : ref) (q : Z) :
  forall h h1 idx,
    decrement_all h products pre = Some h1 ->
    fst (Inventory.reduce_stock h1 products (id (h1 p)) q) = false ->
    RestaurantApp.checkout_loop h products (pre ++ (p, q) :: post) idx
    = (h1, calls_of h (pre ++ [(p, q)]), Some ((idx + List.length pre)%nat, (p, q))).
Proof.
  induction pre as [| [p0 q0] pre IH]; intros h h1 idx H Hfail.
  - injection H as <-. simpl.
    destruct (reduce_stock_cases h products (id (h p)) q)
      as [[E _] | (a & _ & _ & E)]; rewrite E in Hfail |- *; [| discriminate].
    now rewrite Nat.add_0_r.
  - apply decrement_all_cons in H as (a & _ & _ & E & H).
    simpl. rewrite E, (IH _ _ (S idx) H Hfail).
    rewrite (calls_of_ids h) by apply set_stock_same_but_stock.
    now rewrite Nat.add_succ_r.
Qed.

(** ** [_on_checkout] *)

(** Once the order is not empty, its total is finite and the operator has
    confirmed, [_on_checkout] is its loop followed by the bookkeeping of the
    branch the loop ended in. *)
Lemma on_checkout_loop (app : App) :
  order app <> [] ->
  Order.total (store app) (order app) <> None ->
  RestaurantApp._on_checkout true app
  = let '(h, calls, stop) :=
      RestaurantApp.checkout_loop (store app) (inventory app) (order app) 1 in
    match stop with
    | Some (k, (p, q)) =>
        (with_store app h, calls,
         FailedAtLine k (id (h p)) q
           (Inventory.get_stock h (inventory app) (id (h p))))
    | None => (with_order (with_store app h) [], calls, CommittedFull)
    end.
Proof.
  intros Hne Htot. unfold RestaurantApp._on_checkout.
  destruct (order app) as [| l rest]; [congruence |].
  destruct (Order.total (store app) (l :: rest)); [reflexivity | congruence].
Qed.

(** Without the operator's confirmation nothing is touched. *)
Lemma on_checkout_declined (app : App) :
  snd (RestaurantApp._on_checkout false app) <> CommittedFull
  /\ fst (RestaurantApp._on_checkout false app) = (app, []).
Proof.
  unfold RestaurantApp._on_checkout.
  destruct (order app); [split; [discriminate | reflexivity] |].
  destruct (Order.total _ _); split; (discriminate || reflexivity).
Qed.

(** C1. When lines 1..k-1 of the ticket are decremented with success and
    the decrement of line k fails, checkout stops at line k: the store is the
    one the first k-1 decrements produced (they are not undone), the calls
    made to [reduce_stock] are those of lines 1..k and no other, the failure
    names line k, and the ticket still holds all its lines and quantities. *)
Theorem checkout_stops_at_first_failure (app : App)
        (pre post : list Order.line) (p : ref) (q : Z) (h1 : heap) :
  order app = pre ++ (p, q) :: post ->
  Order.total (store app) (order app) <> None ->
  decrement_all (store app) (inventory app) pre = Some h1 ->
  fst (Inventory.reduce_stock h1 (inventory app) (id (h1 p)) q) = false ->
  RestaurantApp._on_checkout true app
  = (with_store app h1,
     calls_of (store app) (pre ++ [(p, q)]),
     FailedAtLine (S (List.length pre)) (id (store app p)) q
       (Inventory.get_stock h1 (inventory app) (id (store app p))))
  /\ order (with_store app h1) = pre ++ (p, q) :: post
  /\ same_but_stock (store app) h1
  /\ (forall r, stock (h1 r)
                = stock (store app r)
                  - demand (store app) (inventory app) pre r)
  /\ store (fst (fst (RestaurantApp._on_checkout true app))) = h1
  /\ order (fst (fst (RestaurantApp._on_checkout true app)))
     = pre ++ (p, q) :: post
  /\ inventory (fst (fst (RestaurantApp._on_checkout true app)))
     = inventory app
  /\ (forall r,
         stock (store (fst (fst (RestaurantApp._on_checkout true app))) r)
         = stock (store app r) - demand (store app) (inventory app) pre r
         /\ id (store (fst (fst (RestaurantApp._on_checkout true app))) r)
            = id (store app r)
         /\ name (store (fst (fst (RestaurantApp._on_checkout true app))) r)
            = name (store app r)
         /\ price (store (fst (fst (RestaurantApp._on_checkout true app))) r)
            = price (store app r)).
Proof.
  intros Horder Htot Hpre Hfail.
  assert (Hs : same_but_stock (store app) h1)
    by now apply decrement_all_same_but_stock in Hpre.
  assert (Hrun : RestaurantApp._on_checkout true app
                 = (with_store app h1,
                    calls_of (store app) (pre ++ [(p, q)]),
                    FailedAtLine (S (List.length pre)) (id (store app p)) q
                      (Inventory.get_stock h1 (inventory app)
                                           (id (store app p))))).
  { rewrite on_checkout_loop;
      [| rewrite Horder; intros E; symmetry in E; revert E;
         apply app_cons_not_nil | exact Htot].
    rewrite Horder.
    rewrite (checkout_loop_break _ pre post p q _ h1 1%nat Hpre Hfail).
    now destruct (Hs p) as (-> & _). }
  assert (Hstock : forall r, stock (h1 r)
                             = stock (store app r)
                               - demand (store app) (inventory app) pre r)
    by now apply decrement_all_stock.
  split; [exact Hrun |]. split; [exact Horder |]. split; [exact Hs |].
  split; [exact Hstock |].
  rewrite Hrun. cbn [fst snd]. unfold with_store. cbn [store order inventory].
  split; [reflexivity |]. split; [exact Horder |]. split; [reflexivity |].
  intros r. split; [apply Hstock | apply Hs].
Qed.

Lemma checkout_stops_at_first_failure_witness :
  RestaurantApp._on_checkout true (sample_counter [(0%nat, 3); (1%nat, 2)])
  = (with_store (sample_counter [(0%nat, 3); (1%nat, 2)]) sample_store_sold,
     [(1, 3); (2, 2)],
     FailedAtLine 2 2 2 1)
  /\ stock (store (fst (fst (RestaurantApp._on_checkout true
                               (sample_counter [(0%nat, 3); (1%nat, 2)]))))
                  0%nat)
     = 5 - 3
  /\ order (fst (fst (RestaurantApp._on_checkout true
                        (sample_counter [(0%nat, 3); (1%nat, 2)]))))
     = [(0%nat, 3); (1%nat, 2)].
Proof.
  destruct (checkout_stops_at_first_failure
              (sample_counter [(0%nat, 3); (1%nat, 2)])
              [(0%nat, 3)] [] 1%nat 2 sample_store_sold)
    as (Hrun & _ & _ & _ & _ & Horder & _ & Hstock).
  - reflexivity.
  - discriminate.
  - reflexivity.
  - reflexivity.
  - split; [exact Hrun |]. split; [| exact Horder].
    exact (proj1 (Hstock 0%nat)).
Defined.



(** C5. On an empty ticket [_on_checkout] ends on the "Empty order" message,
    whatever the operator would have answered: no call to [reduce_stock] is
    made and the state, catalog included, is the one it started from. *)
Theorem checkout_empty_rejected (confirm : bool) (app : App) :
  order app = [] ->
  RestaurantApp._on_checkout confirm app = (app, [], EmptyOrder).
Proof.
  intros Hempty. unfold RestaurantApp._on_checkout. now rewrite Hempty.
Qed.

Lemma checkout_empty_rejected_witness :
  RestaurantApp._on_checkout true (sample_counter [])
  = (sample_counter [], [], EmptyOrder).
Proof.
  apply (checkout_empty_rejected true (sample_counter [])). reflexivity.
Defined.

(** ** The order ticket *)

(** C9. [add_item] puts the new line at the end of the ticket and touches
    no line already there, whatever item those lines are for: the ticket is
    one line longer after each call, and adding the same item twice gives
    two lines, each with its own quantity. *)
Theorem add_item_appends_unmerged (items : list Order.line)
        (product : ref) (qty qty' : Z) :
  Order.add_item items product qty = items ++ [(product, qty)]
  /\ List.length (Order.add_item items product qty) = S (List.length items)
  /\ firstn (List.length items) (Order.add_item items product qty) = items
  /\ Order.add_item (Order.add_item items product qty) product qty'
     = items ++ [(product, qty); (product, qty')].
Proof.
  unfold Order.add_item. repeat split.
  - rewrite length_app. simpl. lia.
  - rewrite firstn_app, Nat.sub_diag, firstn_all. simpl. apply app_nil_r.
  - now rewrite <- app_assoc.
Qed.

Example readd_same_item :
  Order.add_item (Order.add_item [] 0%nat 1) 0%nat 2 = [(0%nat, 1); (0%nat, 2)]
  /\ List.length (Order.add_item (Order.add_item [] 0%nat 1) 0%nat 2) = 2%nat.
Proof. split; reflexivity. Qed.

Lemma remove_last_item_snoc (items : list Order.line) (l : Order.line) :
  Order.remove_last_item (items ++ [l]) = items.
Proof.
  unfold Order.remove_last_item.
  destruct (items ++ [l]) eqn:E.
  - symmetry in E. now apply app_cons_not_nil in E.
  - rewrite <- E. apply removelast_last.
Qed.

(** C8. [remove_last_item] right after [add_item] gives back the ticket as
    it was before the line was added, and on an empty ticket it does nothing
    and raises nothing. *)
Theorem remove_last_after_add (items : list Order.line)
        (product : ref) (qty : Z) :
  Order.remove_last_item (Order.add_item items product qty) = items
  /\ Order.remove_last_item [] = [].
Proof.
  split; [apply remove_last_item_snoc | reflexivity].
Qed.

Example remove_last_is_lifo :
  Order.remove_last_item (Order.add_item (Order.add_item [] 0%nat 1) 1%nat 2)
  = [(0%nat, 1)].
Proof. reflexivity. Qed.

(** The same step seen from the counter: with a product selected and a
    quantity text that reads as an integer above zero, [add_to_order]
    appends the line. *)
Lemma add_to_order_valid (py_int : string -> option Z) (app : App)
      (pid : Z) (product : ref) (qty : Z) :
  menu_selection app = Some pid ->
  Inventory.get_product (store app) (inventory app) pid = Some product ->
  py_int (qty_var app) = Some qty ->
  0 < qty ->
  RestaurantApp.add_to_order py_int app
  = (with_order app (order app ++ [(product, qty)]), LineAdded).
Proof.
  intros Hsel Hfound Hint Hpos. unfold RestaurantApp.add_to_order.
  rewrite Hsel, Hfound, Hint.
  destruct (Z.leb_spec qty 0); [lia | reflexivity].
Qed.

(** Counterexample to C6 as stated: [Order.add_item] checks nothing, a
    quantity of zero (or below) is appended like any other. *)
Lemma add_item_takes_any_quantity :
  Order.add_item [] 0%nat 0 = [(0%nat, 0)]
  /\ Order.add_item [(0%nat, 1)] 1%nat (-4) = [(0%nat, 1); (1%nat, -4)]
  /\ ~ (forall items product qty,
           qty <= 0 -> Order.add_item items product qty = items).
Proof.
  repeat split. intros H. specialize (H [] 0%nat 0). simpl in H.
  assert (Hle : 0 <= 0) by lia. specialize (H Hle). discriminate H.
Qed.

(** C6, amended. The quantity is checked by [add_to_order], the caller of
    [add_item]: when the quantity text is not an integer, or is an integer
    not above zero, [add_to_order] leaves the whole state, ticket included,
    as it was and never reports a line added; with a product selected it ends
    on the "Bad quantity" warning of the case at hand.  [add_item] itself
    appends whatever quantity it is handed. *)
Theorem add_to_order_rejects_bad_quantity (py_int : string -> option Z)
        (app : App) :
  (py_int (qty_var app) = None
   \/ exists qty, py_int (qty_var app) = Some qty /\ qty <= 0) ->
  fst (RestaurantApp.add_to_order py_int app) = app
  /\ snd (RestaurantApp.add_to_order py_int app) <> LineAdded
  /\ (forall pid product,
         menu_selection app = Some pid ->
         Inventory.get_product (store app) (inventory app) pid = Some product ->
         snd (RestaurantApp.add_to_order py_int app)
         = match py_int (qty_var app) with
           | None => NotWholeNumber
           | Some _ => NotAtLeastOne
           end)
  /\ (forall items product qty,
         Order.add_item items product qty = items ++ [(product, qty)]).
Proof.
  intros Hbad. unfold RestaurantApp.add_to_order.
  assert (Hq : match py_int (qty_var app) with
               | None => True
               | Some qty => (qty <=? 0) = true
               end).
  { destruct Hbad as [-> | (qty & -> & Hle)]; [exact I |].
    now apply Z.leb_le. }
  repeat split.
  - destruct (menu_selection app); [| reflexivity].
    destruct (Inventory.get_product _ _ _); [| reflexivity].
    destruct (py_int (qty_var app)); [| reflexivity].
    now rewrite Hq.
  - destruct (menu_selection app); [| discriminate].
    destruct (Inventory.get_product _ _ _); [| discriminate].
    destruct (py_int (qty_var app)); [| discriminate].
    rewrite Hq. discriminate.
  - intros pid product -> ->.
    destruct (py_int (qty_var app)); [| reflexivity].
    now rewrite Hq.
Qed.

Lemma add_to_order_rejects_bad_quantity_witness :
  RestaurantApp.add_to_order sample_int (sample_app [(1%nat, 1)] (Some 1) "0")
  = (sample_app [(1%nat, 1)] (Some 1) "0", NotAtLeastOne)
  /\ RestaurantApp.add_to_order sample_int
       (sample_app [(1%nat, 1)] (Some 1) "two")
     = (sample_app [(1%nat, 1)] (Some 1) "two", NotWholeNumber).
Proof.
  split.
  - destruct (add_to_order_rejects_bad_quantity sample_int
                (sample_app [(1%nat, 1)] (Some 1) "0")) as (H1 & _ & H2 & _).
    + right. exists 0. split; [reflexivity | lia].
    + rewrite (surjective_pairing (RestaurantApp.add_to_order _ _)), H1.
      now rewrite (H2 1 0%nat eq_refl eq_refl).
  - destruct (add_to_order_rejects_bad_quantity sample_int
                (sample_app [(1%nat, 1)] (Some 1) "two")) as (H1 & _ & H2 & _).
    + left. reflexivity.
    + rewrite (surjective_pairing (RestaurantApp.add_to_order _ _)), H1.
      now rewrite (H2 1 0%nat eq_refl eq_refl).
Defined.

(** ** Totals *)

Lemma total_from_sum (h : heap) (items : list Order.line) :
  forall acc,
    Order.total_from h acc items
    = option_map (fun xs => fold_left PrimFloat.add xs acc)
                 (line_amounts h items).
Proof.
  induction items as [| [p q] rest IH]; intros acc; simpl; [reflexivity |].
  destruct (Py.float_mul_int (price (h p)) q) as [x |]; [| reflexivity].
  rewrite IH. now destruct (line_amounts h rest).
Qed.

(** The subtotal reads the store for prices only, and reads them at the
    time of the call. *)
Lemma line_amounts_prices (h h' : heap) (items : list Order.line) :
  (forall l, In l items -> price (h' (fst l)) = price (h (fst l))) ->
  line_amounts h' items = line_amounts h items.
Proof.
  induction items as [| [p q] rest IH]; simpl; intros Hp; [reflexivity |].
  pose proof (Hp (p, q) (or_introl eq_refl)) as E. simpl in E. rewrite E.
  rewrite IH; [reflexivity |]. intros l Hl. apply Hp. now right.
Qed.

Lemma total_compensated_from_sum (h : heap) (items : list Order.line) :
  forall f c,
    Order.total_compensated_from h f c items
    = option_map
        (fun xs =>
           let fc := fold_left
                       (fun fc y => Py.compensated_add (fst fc) (snd fc) y)
                       xs (f, c) in
           Py.compensated_end (fst fc) (snd fc))
        (line_amounts h items).
Proof.
  induction items as [| [p q] rest IH]; intros f c; simpl; [reflexivity |].
  destruct (Py.float_mul_int (price (h p)) q) as [x |]; [| reflexivity].
  rewrite IH, <- surjective_pairing. now destruct (line_amounts h rest).
Qed.

(** On either interpreter [total()] is the builtin [sum] of the amounts of
    the lines, and raises when one of the amounts does. *)
Lemma total_with_sum (alg : Py.summation) (h : heap)
      (items : list Order.line) :
  Order.total_with alg h items
  = option_map (Py.sum_with alg) (line_amounts h items).
Proof.
  destruct alg; simpl.
  - unfold Order.total, Py.sum. apply total_from_sum.
  - unfold Order.total_compensated, Py.sum_compensated.
    destruct items as [| [p q] rest]; simpl; [reflexivity |].
    destruct (Py.float_mul_int (price (h p)) q) as [x |]; [| reflexivity].
    rewrite total_compensated_from_sum. now destruct (line_amounts h rest).
Qed.

(** Whether [total()] raises does not depend on how [sum] adds. *)
Lemma total_with_raises_alike (alg : Py.summation) (h : heap)
      (items : list Order.line) :
  Order.total_with alg h items = None <-> Order.total h items = None.
Proof.
  change (Order.total h items) with (Order.total_with Py.LeftToRight h items).
  rewrite !total_with_sum.
  destruct (line_amounts h items); simpl; split; congruence.
Qed.

(** Counterexample to C7 as stated: one line, one Soup at 10.00.  On
    either interpreter the summary shows 10.7 while
    [subtotal * (1 + TAX_RATE)] is the next float up, so Python's [==]
    between the two is false. *)
Lemma total_is_not_subtotal_times_rate :
  (forall alg,
      RestaurantApp.update_order_summary alg (sample_counter [(0%nat, 1)])
      = Some (10, 0.70000000000000007, 10.699999999999999)%float)
  /\ PrimFloat.mul 10 (PrimFloat.add 1 TAX_RATE) = 10.700000000000001%float
  /\ PrimFloat.eqb (PrimFloat.mul 10 (PrimFloat.add 1 TAX_RATE))
                   10.699999999999999%float = false
  /\ (forall alg,
         ~ (forall app subtotal tax total,
               RestaurantApp.update_order_summary alg app
               = Some (subtotal, tax, total) ->
               PrimFloat.eqb
                 (PrimFloat.mul subtotal (PrimFloat.add 1 TAX_RATE)) total
               = true)).
Proof.
  assert (Hshown : forall alg,
             RestaurantApp.update_order_summary alg
               (sample_counter [(0%nat, 1)])
             = Some (10, 0.70000000000000007, 10.699999999999999)%float)
    by (intros []; vm_compute; reflexivity).
  split; [exact Hshown |].
  split; [vm_compute; reflexivity |].
  split; [vm_compute; reflexivity |].
  intros alg H.
  specialize (H (sample_counter [(0%nat, 1)]) _ _ _ (Hshown alg)).
  vm_compute in H. discriminate H.
Qed.

(** C7, amended. For every ticket and every tax rate, on either
    interpreter, each read recomputes in binary64, from the ticket and the
    prices the store holds at that time: the subtotal as the builtin [sum]
    of the amounts [price * quantity] of the lines in ticket order (for a
    ticket of one line, that line's amount added to 0), the tax as
    [subtotal * rate] and the total as [subtotal + tax]; the summary is
    these at [TAX_RATE], and nothing is rounded or kept between reads.
    That [subtotal * (1 + rate)] equals the total is not part of it.
    ([None] on both sides: a quantity too large for a float.) *)
Theorem summary_recomputed_from_lines (alg : Py.summation) (rate : float)
        (app : App) :
  Order.total_with alg (store app) (order app)
  = option_map (Py.sum_with alg) (line_amounts (store app) (order app))
  /\ (forall p q,
         order app = [(p, q)] ->
         Order.total_with alg (store app) (order app)
         = option_map (PrimFloat.add 0)
                      (Py.float_mul_int (price (store app p)) q))
  /\ RestaurantApp.totals_with_tax alg rate (store app) (order app)
     = option_map
         (fun subtotal =>
            (subtotal,
             PrimFloat.mul subtotal rate,
             PrimFloat.add subtotal (PrimFloat.mul subtotal rate)))
         (Order.total_with alg (store app) (order app))
  /\ RestaurantApp.update_order_summary alg app
     = RestaurantApp.totals_with_tax alg TAX_RATE (store app) (order app)
  /\ (forall h',
         (forall l, In l (order app) ->
                    price (h' (fst l)) = price (store app (fst l))) ->
         RestaurantApp.update_order_summary alg (with_store app h')
         = RestaurantApp.update_order_summary alg app).
Proof.
  split; [apply total_with_sum |].
  split.
  { intros p q ->. destruct alg; simpl; unfold Order.total; simpl;
      destruct (Py.float_mul_int (price (store app p)) q) as [x |];
      reflexivity. }
  split; [reflexivity |]. split; [reflexivity |].
  intros h' Hprices.
  unfold RestaurantApp.update_order_summary, RestaurantApp.totals_with_tax,
    with_store.
  simpl. rewrite !total_with_sum.
  now rewrite (line_amounts_prices (store app) h') by exact Hprices.
Qed.

Example summary_two_lines :
  forall alg,
    RestaurantApp.update_order_summary alg
      (sample_counter [(0%nat, 3); (1%nat, 2)])
    = Some (35, 2.4500000000000002, 37.450000000000003)%float.
Proof. intros []; vm_compute; reflexivity. Qed.

(** ** The counter's two ticket buttons together *)

Lemma remove_last_after_add_to_order (py_int : string -> option Z) (app : App)
      (pid : Z) (product : ref) (qty : Z) :
  menu_selection app = Some pid ->
  Inventory.get_product (store app) (inventory app) pid = Some product ->
  py_int (qty_var app) = Some qty ->
  0 < qty ->
  RestaurantApp._on_remove_last (fst (RestaurantApp.add_to_order py_int app))
  = app.
Proof.
  intros Hsel Hfound Hint Hpos.
  rewrite (add_to_order_valid py_int app pid product qty) by assumption.
  unfold RestaurantApp._on_remove_last, with_order. simpl.
  rewrite remove_last_item_snoc. now destruct app.
Qed.

(** ** Every checkout that starts ends in one of the two ways above *)

(** Either all decrements succeed, or there is a first line whose
    decrement fails after those before it succeeded. *)
Lemma first_failure_exists (products : list ref) (lines : list Order.line) :
  forall h,
    decrement_all h products lines = None ->
    exists pre p q post h1,
      lines = pre ++ (p, q) :: post
      /\ decrement_all h products pre = Some h1
      /\ fst (Inventory.reduce_stock h1 products (id (h1 p)) q) = false.
Proof.
  induction lines as [| [p q] rest IH]; intros h H; [discriminate |].
  simpl in H.
  destruct (Inventory.reduce_stock h products (id (h p)) q) as [ok h0] eqn:E.
  destruct ok.
  - destruct (IH h0 H) as (pre & p' & q' & post & h1 & -> & Hpre & Hfail).
    exists ((p, q) :: pre), p', q', post, h1.
    repeat split; [| exact Hfail]. simpl. now rewrite E.
  - exists [], p, q, rest, h. repeat split. now rewrite E.
Qed.

(** * Further properties of the inventory *)

(** X1. A call to [reduce_stock] for one id changes neither the product
    found nor the stock read for any other id. *)
Theorem reduce_stock_other_ids (h : heap) (products : list ref)
        (pid pid' qty : Z) :
  pid' <> pid ->
  Inventory.get_product
    (snd (Inventory.reduce_stock h products pid qty)) products pid'
  = Inventory.get_product h products pid'
  /\ Inventory.get_stock
       (snd (Inventory.reduce_stock h products pid qty)) products pid'
     = Inventory.get_stock h products pid'.
Proof.
  intros Hne.
  assert (Hget : Inventory.get_product
                   (snd (Inventory.reduce_stock h products pid qty))
                   products pid'
                 = Inventory.get_product h products pid').
  { apply get_product_ids. intros r _.
    apply (reduce_stock_same_but_stock h products pid qty). }
  split; [exact Hget |].
  unfold Inventory.get_stock. rewrite Hget.
  destruct (Inventory.get_product h products pid') as [p' |] eqn:Hp';
    [| reflexivity].
  apply get_product_Some in Hp' as [_ Hid'].
  destruct (reduce_stock_cases h products pid qty)
    as [[-> _] | (a & Ha & _ & ->)]; simpl; [reflexivity |].
  apply get_product_Some in Ha as [_ Hida].
  rewrite set_stock_other; [reflexivity |]. intros ->. congruence.
Qed.

Lemma reduce_stock_other_ids_witness :
  Inventory.get_stock
    (snd (Inventory.reduce_stock sample_store [0; 1]%nat 1 3)) [0; 1]%nat 2
  = Inventory.get_stock sample_store [0; 1]%nat 2.
Proof.
  apply (reduce_stock_other_ids sample_store [0; 1]%nat 1 2 3). lia.
Defined.

(** X2. Two calls for the same id with positive quantities succeed
    together exactly when one call for the sum succeeds, and then they leave
    every object as that one call does. *)
Theorem reduce_stock_twice (h : heap) (products : list ref) (pid q1 q2 : Z) :
  0 < q1 -> 0 < q2 ->
  fst (Inventory.reduce_stock h products pid (q1 + q2))
  = (fst (Inventory.reduce_stock h products pid q1)
     && fst (Inventory.reduce_stock
               (snd (Inventory.reduce_stock h products pid q1))
               products pid q2))%bool
  /\ (fst (Inventory.reduce_stock h products pid (q1 + q2)) = true ->
      forall r,
        snd (Inventory.reduce_stock
               (snd (Inventory.reduce_stock h products pid q1))
               products pid q2) r
        = snd (Inventory.reduce_stock h products pid (q1 + q2)) r).
Proof.
  intros H1 H2.
  assert (Hget : Inventory.get_product
                   (snd (Inventory.reduce_stock h products pid q1))
                   products pid
                 = Inventory.get_product h products pid).
  { apply get_product_ids. intros r _.
    apply (reduce_stock_same_but_stock h products pid q1). }
  unfold Inventory.reduce_stock in *.
  destruct (Inventory.get_product h products pid) as [a |] eqn:Ha.
  2:{ simpl. rewrite Ha. split; [reflexivity | discriminate]. }
  destruct (Z.leb_spec (q1 + q2) 0); [lia |].
  destruct (Z.leb_spec q1 0); [lia |].
  destruct (Z.geb_spec (stock (h a)) q1) as [Hge1 | Hlt1]; simpl in *.
  - rewrite Hget. destruct (Z.leb_spec q2 0); [lia |].
    rewrite set_stock_same.
    destruct (Z.geb_spec (stock (h a)) (q1 + q2)),
             (Z.geb_spec (stock (h a) - q1) q2); simpl; try lia;
      (split; [reflexivity | try discriminate]).
    intros _ r. unfold set_stock.
    destruct (Nat.eqb r a); [| reflexivity].
    simpl. f_equal. lia.
  - destruct (Z.geb_spec (stock (h a)) (q1 + q2)); simpl; [lia |].
    split; [reflexivity | discriminate].
Qed.

Lemma reduce_stock_twice_witness :
  fst (Inventory.reduce_stock sample_store [0; 1]%nat 1 (2 + 3)) = true
  /\ stock (snd (Inventory.reduce_stock
                   (snd (Inventory.reduce_stock sample_store [0; 1]%nat 1 2))
                   [0; 1]%nat 1 3) 0%nat) = 0.
Proof.
  destruct (reduce_stock_twice sample_store [0; 1]%nat 1 2 3) as [_ Hsame];
    [lia | lia |].
  split; [reflexivity |].
  rewrite (Hsame eq_refl 0%nat). reflexivity.
Defined.

(** * Further properties of the ticket *)

Lemma total_from_snoc (h : heap) (items : list Order.line) (p : ref) (q : Z) :
  forall acc,
    Order.total_from h acc (items ++ [(p, q)])
    = match Order.total_from h acc items, Py.float_mul_int (price (h p)) q with
      | Some s, Some x => Some (PrimFloat.add s x)
      | _, _ => None
      end.
Proof.
  induction items as [| [p0 q0] rest IH]; intros acc; simpl.
  - now destruct (Py.float_mul_int (price (h p)) q).
  - destruct (Py.float_mul_int (price (h p0)) q0); [apply IH | reflexivity].
Qed.

Lemma line_amounts_snoc (h : heap) (items : list Order.line)
      (p : ref) (q : Z) :
  line_amounts h (items ++ [(p, q)])
  = match line_amounts h items, Py.float_mul_int (price (h p)) q with
    | Some xs, Some x => Some (xs ++ [x])
    | _, _ => None
    end.
Proof.
  induction items as [| [p0 q0] rest IH]; simpl.
  - now destruct (Py.float_mul_int (price (h p)) q).
  - rewrite IH.
    destruct (Py.float_mul_int (price (h p0)) q0); [| reflexivity].
    destruct (line_amounts h rest); [| reflexivity].
    now destruct (Py.float_mul_int (price (h p)) q).
Qed.

(** X3. On either interpreter the subtotal of a ticket with one more line
    raises exactly when the subtotal of the ticket or the amount of the new
    line does, and the subtotal of a ticket of one line is that line's
    [price * quantity] added to 0.  Where [sum] adds from left to right
    (CPython up to 3.11) the subtotal of the longer ticket is the subtotal
    of the shorter one plus the amount of the new line, in one float
    addition. *)
Theorem total_after_add_item (alg : Py.summation) (h : heap)
        (items : list Order.line) (p : ref) (q : Z) :
  (Order.total_with alg h (Order.add_item items p q) = None
   <-> Order.total_with alg h items = None
       \/ Py.float_mul_int (price (h p)) q = None)
  /\ Order.total_with alg h (Order.add_item [] p q)
     = option_map (PrimFloat.add 0) (Py.float_mul_int (price (h p)) q)
  /\ Order.total_with Py.LeftToRight h (Order.add_item items p q)
     = match Order.total_with Py.LeftToRight h items,
             Py.float_mul_int (price (h p)) q with
       | Some s, Some x => Some (PrimFloat.add s x)
       | _, _ => None
       end.
Proof.
  split; [| split].
  - rewrite !total_with_sum. unfold Order.add_item.
    rewrite line_amounts_snoc.
    destruct (line_amounts h items), (Py.float_mul_int (price (h p)) q);
      simpl;
      (split; [intros H; try discriminate H; auto
              | intros [H | H]; try discriminate H; reflexivity]).
  - destruct alg; simpl; unfold Order.total; simpl;
      destruct (Py.float_mul_int (price (h p)) q); reflexivity.
  - simpl. unfold Order.total, Order.add_item. apply total_from_snoc.
Qed.

(** Where [sum] compensates (CPython 3.12 and later) a third line need not
    add its amount to the subtotal of the first two. *)
Example compensated_total_three_lines :
  Order.total_with Py.Compensated dime_store [(0%nat, 1); (1%nat, 1)]
  = Some 0.30000000000000004%float
  /\ Order.total_with Py.Compensated dime_store
       [(0%nat, 1); (1%nat, 1); (2%nat, 1)]
     = Some 0.59999999999999998%float
  /\ Order.total_with Py.LeftToRight dime_store
       [(0%nat, 1); (1%nat, 1); (2%nat, 1)]
     = Some 0.60000000000000009%float.
Proof. repeat split; vm_compute; reflexivity. Qed.

(** * Further properties of checkout *)

Lemma reduce_stock_frame (h : heap) (products : list ref) (pid qty : Z) :
  forall r,
    stock (snd (Inventory.reduce_stock h products pid qty) r) <= stock (h r)
    /\ (~ In r products ->
        snd (Inventory.reduce_stock h products pid qty) r = h r).
Proof.
  intros r.
  destruct (reduce_stock_cases h products pid qty)
    as [[-> _] | (a & Ha & Hq & ->)]; simpl; [split; [lia | reflexivity] |].
  apply get_product_Some in Ha as [Hin _].
  destruct (Nat.eq_dec r a) as [-> | Hne].
  - rewrite set_stock_same. split; [lia | contradiction].
  - rewrite set_stock_other by exact Hne. split; [lia | reflexivity].
Qed.

(** What the loop keeps whichever way it ends. *)
Lemma checkout_loop_keeps (products : list ref) (items : list Order.line) :
  forall h idx,
    let h' := fst (fst (RestaurantApp.checkout_loop h products items idx)) in
    same_but_stock h h'
    /\ (forall r, stock (h' r) <= stock (h r))
    /\ (forall r, ~ In r products -> h' r = h r)
    /\ (stock_nonneg h products -> stock_nonneg h' products).
Proof.
  induction items as [| [p q] rest IH]; intros h idx; simpl.
  - split; [apply same_but_stock_refl |].
    split; [intros r; lia |]. split; [reflexivity | trivial].
  - pose proof (reduce_stock_same_but_stock h products (id (h p)) q) as Hs.
    pose proof (reduce_stock_frame h products (id (h p)) q) as Hf.
    pose proof (reduce_stock_nonneg h products (id (h p)) q) as Hn.
    destruct (Inventory.reduce_stock h products (id (h p)) q) as [ok h1].
    simpl in Hs, Hf, Hn.
    destruct ok; simpl.
    + specialize (IH h1 (S idx)).
      destruct (RestaurantApp.checkout_loop h1 products rest (S idx))
        as [[h2 calls] stop]. simpl in IH |- *.
      destruct IH as (I1 & I2 & I3 & I4).
      split; [eapply same_but_stock_trans; eassumption |].
      split; [intros r; specialize (I2 r); destruct (Hf r); lia |].
      split; [| auto].
      intros r Hr. rewrite (I3 r Hr). now apply Hf.
    + split; [exact Hs |]. split; [intros r; now apply Hf |].
      split; [intros r Hr; now apply Hf | exact Hn].
Qed.

(** The two shapes a run of [_on_checkout] has: it returns before its
    loop and changes nothing, or it runs the loop and keeps the ticket
    unless the loop reached its [else] branch. *)
Lemma on_checkout_shape (confirm : bool) (app : App) :
  (fst (fst (RestaurantApp._on_checkout confirm app)) = app
   /\ snd (RestaurantApp._on_checkout confirm app) <> CommittedFull)
  \/ (exists h calls stop,
         RestaurantApp.checkout_loop (store app) (inventory app) (order app) 1
         = (h, calls, stop)
         /\ fst (fst (RestaurantApp._on_checkout confirm app))
            = match stop with
              | Some _ => with_store app h
              | None => with_order (with_store app h) []
              end
         /\ (snd (RestaurantApp._on_checkout confirm app) = CommittedFull
             <-> stop = None)).
Proof.
  unfold RestaurantApp._on_checkout.
  destruct (order app) as [| l rest] eqn:Horder;
    [left; split; [reflexivity | discriminate] |].
  destruct (Order.total (store app) (l :: rest));
    [| left; split; [reflexivity | discriminate]].
  destruct confirm; simpl negb; cbv iota;
    [| left; split; [reflexivity | discriminate]].
  right.
  destruct (RestaurantApp.checkout_loop (store app) (inventory app)
              (l :: rest) 1) as [[h calls] stop].
  exists h, calls, stop. split; [reflexivity |].
  destruct stop as [[k [p q]] |]; simpl.
  - split; [reflexivity |]. split; discriminate.
  - split; [reflexivity |]. split; reflexivity.
Qed.

(** X4. Whatever the ticket, the operator's answer and the way it ends,
    [_on_checkout] leaves the inventory list as it is, changes no id, name
    or price, raises no stock, touches no object outside the inventory
    list and keeps stocks non-negative if they were; when it commits the
    ticket is empty afterwards, and when it does not the ticket is the one
    it was. *)
Theorem checkout_keeps (confirm : bool) (app : App) :
  inventory (fst (fst (RestaurantApp._on_checkout confirm app)))
  = inventory app
  /\ same_but_stock (store app)
       (store (fst (fst (RestaurantApp._on_checkout confirm app))))
  /\ (forall r,
         stock (store (fst (fst (RestaurantApp._on_checkout confirm app))) r)
         <= stock (store app r))
  /\ (forall r, ~ In r (inventory app) ->
         store (fst (fst (RestaurantApp._on_checkout confirm app))) r
         = store app r)
  /\ (stock_nonneg (store app) (inventory app) ->
      stock_nonneg
        (store (fst (fst (RestaurantApp._on_checkout confirm app))))
        (inventory app))
  /\ (snd (RestaurantApp._on_checkout confirm app) = CommittedFull ->
      order (fst (fst (RestaurantApp._on_checkout confirm app))) = [])
  /\ (snd (RestaurantApp._on_checkout confirm app) <> CommittedFull ->
      order (fst (fst (RestaurantApp._on_checkout confirm app))) = order app).
Proof.
  destruct (on_checkout_shape confirm app)
    as [[-> Hnot] | (h & calls & stop & Eloop & -> & Hres)].
  - split; [reflexivity |]. split; [apply same_but_stock_refl |].
    split; [intros r; lia |]. split; [reflexivity |].
    split; [trivial |]. split; [intros Hc; now elim Hnot | reflexivity].
  - pose proof (checkout_loop_keeps (inventory app) (order app) (store app)
                                    1%nat) as Hk.
    rewrite Eloop in Hk. simpl in Hk. destruct Hk as (K1 & K2 & K3 & K4).
    destruct stop as [[k l] |]; simpl.
    + split; [reflexivity |]. split; [exact K1 |]. split; [exact K2 |].
      split; [exact K3 |]. split; [exact K4 |].
      split; [| reflexivity].
      intros Hc. apply Hres in Hc. discriminate Hc.
    + split; [reflexivity |]. split; [exact K1 |]. split; [exact K2 |].
      split; [exact K3 |]. split; [exact K4 |].
      split; [reflexivity |].
      intros Hc. elim Hc. now apply Hres.
Qed.

Lemma reduce_stock_false (h : heap) (products : list ref) (pid qty : Z) :
  fst (Inventory.reduce_stock h products pid qty) = false ->
  Inventory.reduce_stock h products pid qty = (false, h)
  /\ (qty <= 0 \/ Inventory.get_stock h products pid < qty).
Proof.
  intros Hf.
  destruct (reduce_stock_cases h products pid qty)
    as [[E Hwhy] | (a & _ & _ & E)]; rewrite E in Hf; [| discriminate].
  split; [exact E |].
  destruct Hwhy as [Hnone | [Hle | Hlt]]; auto.
  unfold Inventory.get_stock. rewrite Hnone. lia.
Qed.

(** Where the loop breaks, read off its result. *)
Lemma checkout_loop_stop (products : list ref) (items : list Order.line) :
  forall h idx h' calls k p q,
    RestaurantApp.checkout_loop h products items idx
    = (h', calls, Some (k, (p, q))) ->
    (idx <= k)%nat
    /\ nth_error items (k - idx) = Some (p, q)
    /\ decrement_all h products (firstn (k - idx) items) = Some h'
    /\ fst (Inventory.reduce_stock h' products (id (h' p)) q) = false
    /\ List.length calls = S (k - idx).
Proof.
  induction items as [| [p0 q0] rest IH]; intros h idx h' calls k p q H;
    simpl in H; [discriminate |].
  destruct (Inventory.reduce_stock h products (id (h p0)) q0) as [ok h1] eqn:E.
  destruct ok.
  - destruct (RestaurantApp.checkout_loop h1 products rest (S idx))
      as [[h2 calls'] stop] eqn:Eloop.
    injection H as -> <- ->.
    destruct (IH _ _ _ _ _ _ _ Eloop) as (Hle & Hnth & Hdec & Hfail & Hlen).
    replace (k - idx)%nat with (S (k - S idx)) by lia.
    simpl. rewrite E, Hlen. repeat split; auto. lia.
  - injection H as <- <- <- <- <-.
    assert (Hf : fst (Inventory.reduce_stock h products (id (h p0)) q0) = false)
      by now rewrite E.
    destruct (reduce_stock_false _ _ _ _ Hf) as [E' _].
    rewrite E in E'. injection E' as ->.
    rewrite Nat.sub_diag. simpl. repeat split; auto.
Qed.

(** X5. When [_on_checkout] ends on the "Stock low" warning for line [k],
    that line exists in the ticket and carries the quantity reported, all
    lines before it were decremented (the store is the one they left), the
    available amount reported is what [get_stock] now answers for the
    line's id, and the line was refused because its quantity is not above
    zero or exceeds that amount; [reduce_stock] was called [k] times and
    the ticket is unchanged. *)
Theorem checkout_failure_report (confirm : bool) (app app' : App)
        (calls : list stock_call) (k : nat) (pid q avail : Z) :
  RestaurantApp._on_checkout confirm app
  = (app', calls, FailedAtLine k pid q avail) ->
  (1 <= k <= List.length (order app))%nat
  /\ (exists p, nth_error (order app) (k - 1) = Some (p, q)
                /\ id (store app p) = pid)
  /\ decrement_all (store app) (inventory app) (firstn (k - 1) (order app))
     = Some (store app')
  /\ avail = Inventory.get_stock (store app') (inventory app) pid
  /\ (q <= 0 \/ avail < q)
  /\ List.length calls = k
  /\ order app' = order app.
Proof.
  unfold RestaurantApp._on_checkout.
  destruct (order app) as [| l rest] eqn:Horder; [discriminate |].
  destruct (Order.total (store app) (l :: rest)); [| discriminate].
  destruct confirm; simpl negb; cbv iota; [| discriminate].
  destruct (RestaurantApp.checkout_loop (store app) (inventory app)
              (l :: rest) 1) as [[h calls0] stop] eqn:Eloop.
  destruct stop as [[k0 [p0 q0]] |]; [| discriminate].
  intros H. injection H as <- <- <- <- <- <-.
  destruct (checkout_loop_stop _ _ _ _ _ _ _ _ _ Eloop)
    as (Hle & Hnth & Hdec & Hfail & Hlen).
  pose proof (decrement_all_same_but_stock _ _ _ _ Hdec p0) as (Hid & _).
  destruct (reduce_stock_false _ _ _ _ Hfail) as [_ Hwhy].
  assert (Hlt : (k0 - 1 < List.length (l :: rest))%nat).
  { apply nth_error_Some. now rewrite Hnth. }
  unfold with_store. simpl store. simpl order. rewrite Horder.
  split; [simpl in Hlt |- *; lia |].
  split; [exists p0; split; [exact Hnth | now rewrite <- Hid] |].
  split; [exact Hdec |]. split; [reflexivity |].
  split; [exact Hwhy |]. split; [lia | reflexivity].
Qed.

Lemma checkout_failure_report_witness :
  nth_error [(0%nat, 3); (1%nat, 2)] (2 - 1) = Some (1%nat, 2)
  /\ (2 <= 0 \/ 1 < 2).
Proof.
  destruct (checkout_failure_report true
              (sample_counter [(0%nat, 3); (1%nat, 2)])
              (with_store (sample_counter [(0%nat, 3); (1%nat, 2)])
                          sample_store_sold)
              [(1, 3); (2, 2)] 2 2 2 1 eq_refl)
    as (_ & (p & Hnth & Hid) & _ & _ & Hwhy & _).
  split; [| exact Hwhy].
  simpl in Hnth |- *. injection Hnth as <-. reflexivity.
Defined.

(** ** When a checkout commits *)

Lemma demand_nonneg (h : heap) (products : list ref) (lines : list Order.line)
      (r : ref) :
  Forall (fun l => 0 < snd l) lines -> 0 <= demand h products lines r.
Proof.
  induction 1 as [| l rest Hl _ IH]; simpl; [lia |].
  destruct (catalog_item h products l) as [a |]; [| exact IH].
  destruct (Nat.eqb r a); lia.
Qed.

Lemma decrement_all_positive (products : list ref) (lines : list Order.line)
      (h h' : heap) :
  decrement_all h products lines = Some h' ->
  Forall (fun l => 0 < snd l) lines.
Proof.
  intros H. apply Forall_forall. intros l Hl.
  now destruct (decrement_all_lines _ _ _ _ H l Hl).
Qed.

Lemma decrement_all_fits (products : list ref) (lines : list Order.line) :
  forall h h',
    decrement_all h products lines = Some h' ->
    forall r, 0 < demand h products lines r ->
              demand h products lines r <= stock (h r).
Proof.
  induction lines as [| [p q] rest IH]; intros h h' H r; [simpl; lia |].
  apply decrement_all_cons in H as (a & Ha & Hq & _ & H).
  pose proof (demand_nonneg h products rest r
                (decrement_all_positive _ _ _ _ H)) as Hpos.
  specialize (IH _ _ H r).
  rewrite (demand_ids h) in IH by apply set_stock_same_but_stock.
  simpl demand. unfold catalog_item. simpl fst. simpl snd. rewrite Ha.
  destruct (Nat.eqb_spec r a) as [-> | Hne].
  - rewrite set_stock_same in IH. lia.
  - rewrite set_stock_other in IH by exact Hne. exact IH.
Qed.

Lemma fits_decrement_all (products : list ref) (lines : list Order.line) :
  forall h,
    Forall (fun l => 0 < snd l /\ catalog_item h products l <> None) lines ->
    (forall r, 0 < demand h products lines r ->
               demand h products lines r <= stock (h r)) ->
    exists h', decrement_all h products lines = Some h'.
Proof.
  induction lines as [| [p q] rest IH]; intros h Hall Hfit;
    [exists h; reflexivity |].
  inversion Hall as [| l ls [Hq Hitem] Hrest]; subst. simpl in Hq.
  unfold catalog_item in Hitem. simpl in Hitem.
  destruct (Inventory.get_product h products (id (h p))) as [a |] eqn:Ha;
    [| congruence].
  assert (Hpos : forall r, 0 <= demand h products rest r).
  { intros r. apply demand_nonneg.
    eapply Forall_impl; [| exact Hrest]. now intros l [? _]. }
  assert (Hdem : forall r,
             demand h products ((p, q) :: rest) r
             = if Nat.eqb r a then q + demand h products rest r
               else demand h products rest r).
  { intros r. simpl. unfold catalog_item. simpl. now rewrite Ha. }
  assert (Hqa : q <= stock (h a)).
  { specialize (Hfit a). rewrite Hdem, Nat.eqb_refl in Hfit.
    specialize (Hpos a). lia. }
  simpl. unfold Inventory.reduce_stock. rewrite Ha.
  destruct (Z.leb_spec q 0); [lia |].
  destruct (Z.geb_spec (stock (h a)) q); [| lia].
  apply IH.
  - eapply Forall_impl; [| exact Hrest].
    intros l [Hl Hcat]. split; [exact Hl |].
    now rewrite (catalog_item_ids h) by apply set_stock_same_but_stock.
  - intros r. rewrite (demand_ids h) by apply set_stock_same_but_stock.
    specialize (Hfit r). rewrite Hdem in Hfit. specialize (Hpos r).
    destruct (Nat.eqb_spec r a) as [-> | Hne].
    + rewrite set_stock_same. lia.
    + rewrite set_stock_other by exact Hne. exact Hfit.
Qed.

(** The result of a checkout whose loop breaks. *)
Lemma on_checkout_break (app : App) (pre post : list Order.line)
      (p : ref) (q : Z) (h1 : heap) :
  order app = pre ++ (p, q) :: post ->
  Order.total (store app) (order app) <> None ->
  decrement_all (store app) (inventory app) pre = Some h1 ->
  fst (Inventory.reduce_stock h1 (inventory app) (id (h1 p)) q) = false ->
  RestaurantApp._on_checkout true app
  = (with_store app h1,
     calls_of (store app) (pre ++ [(p, q)]),
     FailedAtLine (S (List.length pre)) (id (h1 p)) q
       (Inventory.get_stock h1 (inventory app) (id (h1 p)))).
Proof.
  intros Horder Htot Hpre Hfail.
  rewrite on_checkout_loop;
    [| rewrite Horder; intros E; symmetry in E; revert E;
       apply app_cons_not_nil | exact Htot].
  rewrite Horder.
  now rewrite (checkout_loop_break _ pre post p q _ h1 1%nat Hpre Hfail).
Qed.

(** X6. A confirmed checkout of a non-empty ticket commits exactly when
    every line asks for a quantity above zero of an id the catalog has, and
    for every catalog item the quantities of all the lines that stand for it
    together do not exceed its stock. *)
Theorem checkout_commits_iff (app : App) :
  order app <> [] ->
  Order.total (store app) (order app) <> None ->
  snd (RestaurantApp._on_checkout true app) = CommittedFull
  <->
  (Forall (fun l => 0 < snd l
                    /\ catalog_item (store app) (inventory app) l <> None)
          (order app)
   /\ forall r,
       0 < demand (store app) (inventory app) (order app) r ->
       demand (store app) (inventory app) (order app) r <= stock (store app r)).
Proof.
  intros Hne Htot.
  destruct (decrement_all (store app) (inventory app) (order app))
    as [h' |] eqn:Hall.
  - split.
    + intros _. split; [| now apply decrement_all_fits with (h' := h')].
      apply Forall_forall. intros l Hl.
      destruct (decrement_all_lines _ _ _ _ Hall l Hl) as (Hq & a & Ha & _).
      split; [exact Hq | congruence].
    + intros _. rewrite on_checkout_loop by assumption.
      now rewrite (checkout_loop_all _ _ _ h' 1%nat Hall).
  - split.
    + destruct (first_failure_exists _ _ _ Hall)
        as (pre & p & q & post & h1 & Horder & Hpre & Hfail).
      now rewrite (on_checkout_break app pre post p q h1).
    + intros [Hlines Hfit].
      destruct (fits_decrement_all _ _ _ Hlines Hfit) as [h' Hh'].
      congruence.
Qed.

Lemma checkout_commits_iff_witness :
  snd (RestaurantApp._on_checkout true
         (sample_counter [(0%nat, 3); (0%nat, 3)])) <> CommittedFull
  /\ snd (RestaurantApp._on_checkout true
            (sample_counter [(0%nat, 3); (1%nat, 1)])) = CommittedFull.
Proof.
  split.
  - destruct (checkout_commits_iff (sample_counter [(0%nat, 3); (0%nat, 3)]))
      as [Hto _]; [discriminate | discriminate |].
    intros Hc. destruct (Hto Hc) as [_ Hfit].
    specialize (Hfit 0%nat). simpl in Hfit. lia.
  - destruct (checkout_commits_iff (sample_counter [(0%nat, 3); (1%nat, 1)]))
      as [_ Hfrom]; [discriminate | discriminate |].
    apply Hfrom. split.
    + repeat constructor; simpl; try lia; discriminate.
    + intros [| [| r]]; simpl; lia.
Defined.

(** ** Running a failed checkout again *)

Lemma total_same_prices (h h' : heap) (items : list Order.line) :
  same_but_stock h h' -> Order.total h' items = Order.total h items.
Proof.
  intros Hs. unfold Order.total. rewrite !total_from_sum.
  rewrite (line_amounts_prices h h'); [reflexivity |].
  intros l _. apply Hs.
Qed.

(** A call that is refused stays refused when stocks are lower. *)
Lemma reduce_stock_false_lower (h1 h2 : heap) (products : list ref)
      (pid qty : Z) :
  same_but_stock h1 h2 ->
  (forall r, stock (h2 r) <= stock (h1 r)) ->
  fst (Inventory.reduce_stock h1 products pid qty) = false ->
  fst (Inventory.reduce_stock h2 products pid qty) = false.
Proof.
  intros Hs Hle. unfold Inventory.reduce_stock.
  rewrite (get_product_ids h1 h2) by (intros r _; apply Hs).
  destruct (Inventory.get_product h1 products pid) as [a |]; [| reflexivity].
  destruct (qty <=? 0); [reflexivity |].
  specialize (Hle a).
  destruct (Z.geb_spec (stock (h1 a)) qty); [discriminate |].
  destruct (Z.geb_spec (stock (h2 a)) qty); [lia | reflexivity].
Qed.

Lemma decrement_all_lower (products : list ref) (lines : list Order.line) :
  forall h h',
    decrement_all h products lines = Some h' ->
    forall r, stock (h' r) <= stock (h r).
Proof.
  intros h h' H r. rewrite (decrement_all_stock _ _ _ _ H r).
  pose proof (demand_nonneg h products lines r
                (decrement_all_positive _ _ _ _ H)). lia.
Qed.

(** X7. When a confirmed checkout has failed at line [k] and is confirmed
    again on the same ticket, it fails again, at line [k] or before it; and
    if the lines before [k] all pass once more, they have then been taken
    off the stock twice. *)
Theorem checkout_again_fails_again (app : App) (pre post : list Order.line)
        (p : ref) (q : Z) (h1 : heap) :
  order app = pre ++ (p, q) :: post ->
  Order.total (store app) (order app) <> None ->
  decrement_all (store app) (inventory app) pre = Some h1 ->
  fst (Inventory.reduce_stock h1 (inventory app) (id (h1 p)) q) = false ->
  (exists k' pid' q' avail',
      snd (RestaurantApp._on_checkout true
             (fst (fst (RestaurantApp._on_checkout true app))))
      = FailedAtLine k' pid' q' avail'
      /\ (k' <= S (List.length pre))%nat)
  /\ (forall h2,
         decrement_all h1 (inventory app) pre = Some h2 ->
         fst (fst (RestaurantApp._on_checkout true
                     (fst (fst (RestaurantApp._on_checkout true app)))))
         = with_store app h2
         /\ (forall r, stock (h2 r)
                       = stock (store app r)
                         - 2 * demand (store app) (inventory app) pre r)
         /\ store (fst (fst (RestaurantApp._on_checkout true
                               (fst (fst (RestaurantApp._on_checkout
                                            true app))))))
            = h2
         /\ order (fst (fst (RestaurantApp._on_checkout true
                               (fst (fst (RestaurantApp._on_checkout
                                            true app))))))
            = order app
         /\ forall r,
             stock (store (fst (fst (RestaurantApp._on_checkout true
                                       (fst (fst (RestaurantApp._on_checkout
                                                    true app)))))) r)
             = stock (store app r)
               - 2 * demand (store app) (inventory app) pre r).
Proof.
  intros Horder Htot Hpre Hfail.
  rewrite (on_checkout_break app pre post p q h1) by assumption. simpl fst.
  assert (Hs : same_but_stock (store app) h1)
    by now apply decrement_all_same_but_stock in Hpre.
  assert (Htot1 : Order.total (store (with_store app h1))
                              (order (with_store app h1)) <> None).
  { simpl. now rewrite (total_same_prices (store app) h1). }
  assert (Hagain : forall h2,
             decrement_all h1 (inventory app) pre = Some h2 ->
             RestaurantApp._on_checkout true (with_store app h1)
             = (with_store (with_store app h1) h2,
                calls_of h1 (pre ++ [(p, q)]),
                FailedAtLine (S (List.length pre)) (id (h2 p)) q
                  (Inventory.get_stock h2 (inventory app) (id (h2 p))))).
  { intros h2 H2.
    apply (on_checkout_break (with_store app h1) pre post p q h2);
      try assumption.
    pose proof (decrement_all_same_but_stock _ _ _ _ H2) as Hs2.
    destruct (Hs2 p) as (-> & _). destruct (Hs p) as (Hidp & _).
    assert (Hlow : forall r, stock (h2 r) <= stock (h1 r))
      by exact (decrement_all_lower _ _ _ _ H2).
    exact (reduce_stock_false_lower h1 h2 _ _ _ Hs2 Hlow Hfail). }
  split.
  - destruct (decrement_all h1 (inventory app) pre) as [h2 |] eqn:H2.
    + rewrite (Hagain h2 eq_refl). simpl.
      do 4 eexists. split; [reflexivity | apply le_n].
    + destruct (first_failure_exists _ _ _ H2)
        as (pre' & p' & q' & post' & h1' & Epre & Hpre' & Hfail').
      rewrite (on_checkout_break (with_store app h1) pre'
                 (post' ++ (p, q) :: post) p' q' h1'); try assumption.
      * simpl. do 4 eexists. split; [reflexivity |].
        rewrite Epre, length_app. apply le_n_S, Nat.le_add_r.
      * simpl. rewrite Horder, Epre. now rewrite <- app_assoc.
  - intros h2 H2. rewrite (Hagain h2 H2).
    assert (Htwice : forall r,
               stock (h2 r)
               = stock (store app r)
                 - 2 * demand (store app) (inventory app) pre r).
    { intros r. rewrite (decrement_all_stock _ _ _ _ H2 r).
      rewrite (decrement_all_stock _ _ _ _ Hpre r).
      rewrite (demand_ids (store app) h1) by exact Hs. lia. }
    split; [reflexivity |]. split; [exact Htwice |].
    split; [reflexivity |]. split; [reflexivity | exact Htwice].
Qed.

Lemma checkout_again_fails_again_witness :
  (exists k' pid' q' avail',
      snd (RestaurantApp._on_checkout true
             (fst (fst (RestaurantApp._on_checkout true
                          (sample_counter [(0%nat, 2); (1%nat, 2)])))))
      = FailedAtLine k' pid' q' avail'
      /\ (k' <= 2)%nat)
  /\ stock (store (fst (fst (RestaurantApp._on_checkout true
                               (fst (fst (RestaurantApp._on_checkout true
                                            (sample_counter
                                               [(0%nat, 2); (1%nat, 2)])))))))
                  0%nat)
     = 5 - 2 * 2.
Proof.
  destruct (checkout_again_fails_again
              (sample_counter [(0%nat, 2); (1%nat, 2)])
              [(0%nat, 2)] [] 1%nat 2 (set_stock sample_store 0%nat 3))
    as [Hfails Htwice];
    [reflexivity | discriminate | reflexivity | reflexivity |].
  split; [exact Hfails |].
  destruct (Htwice (set_stock (set_stock sample_store 0%nat 3) 0%nat 1)
                   eq_refl) as (_ & _ & _ & _ & Hstock).
  exact (Hstock 0%nat).
Defined.

(** * The other callbacks *)

(** ** [_on_update_stock] *)

(** X8. With a row selected whose id the catalog has and a number entered,
    [_on_update_stock] makes that number the stock [get_stock] answers for
    the id; it changes no other object, no id, name or price, no stock read
    under another id, and neither the inventory list nor the ticket.
    Without a selection, or when the dialog is cancelled, it changes
    nothing at all. *)
Theorem update_stock_then_get_stock (app : App) (pid new_stock : Z)
        (product : ref) :
  Inventory.get_product (store app) (inventory app) pid = Some product ->
  Inventory.get_stock
    (store (Window._on_update_stock (Some pid) (Some new_stock) app))
    (inventory (Window._on_update_stock (Some pid) (Some new_stock) app)) pid
  = new_stock
  /\ same_but_stock
       (store app)
       (store (Window._on_update_stock (Some pid) (Some new_stock) app))
  /\ (forall r, r <> product ->
         store (Window._on_update_stock (Some pid) (Some new_stock) app) r
         = store app r)
  /\ (forall pid', pid' <> pid ->
         Inventory.get_stock
           (store (Window._on_update_stock (Some pid) (Some new_stock) app))
           (inventory app) pid'
         = Inventory.get_stock (store app) (inventory app) pid')
  /\ inventory (Window._on_update_stock (Some pid) (Some new_stock) app)
     = inventory app
  /\ order (Window._on_update_stock (Some pid) (Some new_stock) app)
     = order app
  /\ (forall selected, Window._on_update_stock selected None app = app)
  /\ (forall answer, Window._on_update_stock None answer app = app).
Proof.
  intros Hp. unfold Window._on_update_stock. rewrite Hp. simpl.
  pose proof (set_stock_same_but_stock (store app) product new_stock) as Hs.
  assert (Hget : forall k,
             Inventory.get_product (set_stock (store app) product new_stock)
                                   (inventory app) k
             = Inventory.get_product (store app) (inventory app) k).
  { intros k. apply get_product_ids. intros r _. apply Hs. }
  split.
  { unfold Inventory.get_stock. rewrite Hget, Hp. apply set_stock_same. }
  split; [exact Hs |].
  split; [intros r Hr; now apply set_stock_other |].
  split.
  { intros pid' Hne. unfold Inventory.get_stock. rewrite Hget.
    destruct (Inventory.get_product (store app) (inventory app) pid')
      as [p' |] eqn:Hp'; [| reflexivity].
    rewrite set_stock_other; [reflexivity |]. intros ->.
    apply get_product_Some in Hp as [_ Hid], Hp' as [_ Hid']. congruence. }
  split; [reflexivity |]. split; [reflexivity |].
  split.
  - intros [k |]; [| reflexivity].
    now destruct (Inventory.get_product (store app) (inventory app) k).
  - reflexivity.
Qed.

Lemma update_stock_then_get_stock_witness :
  Inventory.get_stock
    (store (Window._on_update_stock (Some 2) (Some 40) (sample_counter [])))
    [0; 1]%nat 2
  = 40
  /\ Inventory.get_stock
       (store (Window._on_update_stock (Some 2) (Some 40) (sample_counter [])))
       [0; 1]%nat 1
     = 5.
Proof.
  destruct (update_stock_then_get_stock (sample_counter []) 2 40 1%nat eq_refl)
    as (Hset & _ & _ & Hothers & _).
  split; [exact Hset |].
  refine (eq_trans (Hothers 1 _) _); [lia | reflexivity].
Defined.

(** ** What every event keeps *)

Lemma add_to_order_keeps (py_int : string -> option Z) (app : App) :
  store (fst (RestaurantApp.add_to_order py_int app)) = store app
  /\ inventory (fst (RestaurantApp.add_to_order py_int app)) = inventory app
  /\ (order (fst (RestaurantApp.add_to_order py_int app)) = order app
      \/ exists product qty,
          0 < qty
          /\ order (fst (RestaurantApp.add_to_order py_int app))
             = order app ++ [(product, qty)]).
Proof.
  unfold RestaurantApp.add_to_order.
  destruct (menu_selection app); [| simpl; auto].
  destruct (Inventory.get_product _ _ _) as [product |]; [| simpl; auto].
  destruct (py_int (qty_var app)) as [qty |]; [| simpl; auto].
  destruct (Z.leb_spec qty 0); simpl; [auto |].
  split; [reflexivity |]. split; [reflexivity |].
  right. exists product, qty. split; [lia | reflexivity].
Qed.

Lemma on_checkout_keeps_counter (confirm : bool) (app : App) :
  inventory (fst (fst (RestaurantApp._on_checkout confirm app)))
  = inventory app
  /\ (stock_nonneg (store app) (inventory app) ->
      stock_nonneg
        (store (fst (fst (RestaurantApp._on_checkout confirm app))))
        (inventory app))
  /\ (forall r,
         stock (store (fst (fst (RestaurantApp._on_checkout confirm app))) r)
         <= stock (store app r))
  /\ (order (fst (fst (RestaurantApp._on_checkout confirm app))) = order app
      \/ order (fst (fst (RestaurantApp._on_checkout confirm app))) = []).
Proof.
  destruct (on_checkout_shape confirm app)
    as [[-> _] | (h & calls & stop & Eloop & -> & _)].
  - split; [reflexivity |]. split; [trivial |].
    split; [intros r; lia | now left].
  - pose proof (checkout_loop_keeps (inventory app) (order app) (store app)
                                    1%nat) as Hk.
    rewrite Eloop in Hk. simpl in Hk. destruct Hk as (_ & K2 & _ & K4).
    destruct stop as [[k l] |]; simpl;
      (split; [reflexivity |]; split; [exact K4 |]; split; [exact K2 |]);
      [now left | now right].
Qed.

Lemma remove_last_item_positive (items : list Order.line) :
  quantities_positive items ->
  quantities_positive (Order.remove_last_item items).
Proof.
  intros H. unfold Order.remove_last_item.
  destruct items as [| l rest] eqn:E; [exact H |]. rewrite <- E in *.
  destruct (exists_last (l := items)) as (front & last & ->);
    [congruence |].
  rewrite removelast_last. unfold quantities_positive in *.
  now apply Forall_app in H as [H _].
Qed.

Section EventInvariants.

Variable py_int : string -> option Z.
Variable lower : string -> string.

Local Abbreviation step := (Window.step py_int lower).
Local Abbreviation run := (Window.run py_int lower).

Lemma step_keeps_stock_nonneg (g : Gui) (e : event) :
  answer_allowed e ->
  stock_nonneg (store (counter g)) (inventory (counter g)) ->
  stock_nonneg (store (counter (step g e))) (inventory (counter (step g e))).
Proof.
  intros Hans Hinv. destruct e; simpl; try exact Hinv.
  - destruct (add_to_order_keeps py_int (counter g)) as (-> & -> & _).
    exact Hinv.
  - destruct (on_checkout_keeps_counter answer (counter g))
      as (Hi & Hn & _ & _).
    destruct (RestaurantApp._on_checkout answer (counter g))
      as [[app' calls] result]. simpl in Hi, Hn.
    destruct result; simpl; rewrite Hi; now apply Hn.
  - unfold Window._on_cancel_order.
    destruct (order (counter g)); [exact Hinv |].
    destruct answer; exact Hinv.
  - intros p [].
  - unfold Window._on_update_stock.
    destruct selected as [pid |]; [| exact Hinv].
    destruct (Inventory.get_product _ _ pid) as [product |]; [| exact Hinv].
    destruct answer as [new_stock |]; [| exact Hinv].
    simpl in Hans |- *. intros r Hr.
    destruct (Nat.eq_dec r product) as [-> | Hne].
    + now rewrite set_stock_same.
    + rewrite set_stock_other by exact Hne. now apply Hinv.
Qed.

Lemma step_keeps_quantities_positive (g : Gui) (e : event) :
  quantities_positive (order (counter g)) ->
  quantities_positive (order (counter (step g e))).
Proof.
  intros Hinv. destruct e; simpl; try exact Hinv.
  - destruct (add_to_order_keeps py_int (counter g))
      as (_ & _ & [-> | (product & qty & Hq & ->)]); [exact Hinv |].
    apply Forall_app. split; [exact Hinv |]. now repeat constructor.
  - now apply remove_last_item_positive.
  - destruct (on_checkout_keeps_counter answer (counter g))
      as (_ & _ & _ & Ho).
    destruct (RestaurantApp._on_checkout answer (counter g))
      as [[app' calls] result]. simpl in Ho.
    destruct result; simpl; destruct Ho as [-> | ->];
      solve [exact Hinv | constructor].
  - unfold Window._on_cancel_order.
    destruct (order (counter g)) eqn:E; [now rewrite E |].
    destruct answer; simpl; [constructor | now rewrite E].
  - unfold Window._on_update_stock.
    destruct selected as [pid |]; [| exact Hinv].
    destruct (Inventory.get_product _ _ pid) as [product |]; [| exact Hinv].
    destruct answer as [new_stock |]; exact Hinv.
Qed.

Lemma step_keeps_store (g : Gui) (e : event) :
  changes_stock e = false ->
  store (counter (step g e)) = store (counter g).
Proof.
  destruct e; simpl; try discriminate; intros _; try reflexivity.
  - now destruct (add_to_order_keeps py_int (counter g)) as (-> & _).
  - unfold Window._on_cancel_order.
    destruct (order (counter g)); [reflexivity |].
    now destruct answer.
Qed.

(** X9. From a window whose catalog has no negative stock, no sequence of
    events leads to one that has, as long as the update dialog hands over no
    number below zero (the dialog is opened with [minvalue=0]). *)
Theorem window_keeps_stock_nonneg (events : list event) :
  forall g,
    Forall answer_allowed events ->
    stock_nonneg (store (counter g)) (inventory (counter g)) ->
    stock_nonneg (store (counter (run g events)))
                 (inventory (counter (run g events))).
Proof.
  induction events as [| e rest IH]; intros g Hans Hinv; [exact Hinv |].
  inversion Hans as [| e' rest' He Hrest]; subst.
  simpl. apply IH; [exact Hrest |].
  now apply step_keeps_stock_nonneg.
Qed.

(** X10. From a window whose ticket has only quantities above zero, an
    empty ticket for one, no sequence of events leads to a ticket with a
    quantity of zero or less. *)
Theorem window_keeps_quantities_positive (events : list event) :
  forall g,
    quantities_positive (order (counter g)) ->
    quantities_positive (order (counter (run g events))).
Proof.
  induction events as [| e rest IH]; intros g Hinv; [exact Hinv |].
  simpl. apply IH. now apply step_keeps_quantities_positive.
Qed.

(** X11. Stock is written at checkout and by the update dialog only:
    typing, selecting, adding to the ticket, removing its last line,
    cancelling it, changing category and reloading the menu leave every
    object of the store as it is, however they follow one another. *)
Theorem stock_written_only_by_checkout_and_update (events : list event) :
  forall g,
    Forall (fun e => changes_stock e = false) events ->
    store (counter (run g events)) = store (counter g).
Proof.
  induction events as [| e rest IH]; intros g Hev; [reflexivity |].
  inversion Hev as [| e' rest' He Hrest]; subst.
  simpl. rewrite (IH _ Hrest). now apply step_keeps_store.
Qed.

End EventInvariants.

Lemma window_keeps_stock_nonneg_witness :
  stock_nonneg
    (store (counter
              (Window.run sample_int ascii_lower (sample_gui [])
                 [SelectMenuRow 1; ClickAdd; ClickAdd; ClickCheckout true;
                  ClickUpdateStock (Some 2) (Some 0); ClickAdd;
                  ClickCheckout true])))
    [0; 1]%nat.
Proof.
  apply (window_keeps_stock_nonneg sample_int ascii_lower
           [SelectMenuRow 1; ClickAdd; ClickAdd; ClickCheckout true;
            ClickUpdateStock (Some 2) (Some 0); ClickAdd; ClickCheckout true]
           (sample_gui [])).
  - repeat constructor. simpl. lia.
  - intros p [<- | [<- | []]]; simpl; lia.
Defined.

Lemma window_keeps_quantities_positive_witness :
  quantities_positive
    (order (counter
              (Window.run sample_int ascii_lower (sample_gui [])
                 [SelectMenuRow 1; ClickAdd; TypeQuantity "0"; ClickAdd;
                  TypeQuantity "-4"; ClickAdd; ClickRemoveLast;
                  TypeQuantity "2"; ClickAdd]))).
Proof.
  apply (window_keeps_quantities_positive sample_int ascii_lower
           [SelectMenuRow 1; ClickAdd; TypeQuantity "0"; ClickAdd;
            TypeQuantity "-4"; ClickAdd; ClickRemoveLast;
            TypeQuantity "2"; ClickAdd]
           (sample_gui [])).
  constructor.
Defined.

Lemma stock_written_only_by_checkout_and_update_witness :
  store (counter
           (Window.run sample_int ascii_lower (sample_gui [(1%nat, 1)])
              [SelectMenuRow 1; ClickAdd; TypeQuantity "7"; ClickAdd;
               ClickRemoveLast; ClickCategory (Some "Drinks"%string);
               ClickCancel true; ClickLoadMenu]))
  = sample_store.
Proof.
  apply (stock_written_only_by_checkout_and_update sample_int ascii_lower
           [SelectMenuRow 1; ClickAdd; TypeQuantity "7"; ClickAdd;
            ClickRemoveLast; ClickCategory (Some "Drinks"%string);
            ClickCancel true; ClickLoadMenu]
           (sample_gui [(1%nat, 1)])).
  repeat constructor.
Defined.

(** ** [_on_load_menu] and the empty catalog *)

Lemma checkout_loop_empty_inventory (h : heap) (items : list Order.line)
      (idx : nat) :
  fst (fst (RestaurantApp.checkout_loop h [] items idx)) = h
  /\ (items <> [] ->
      snd (RestaurantApp.checkout_loop h [] items idx) <> None).
Proof.
  destruct items as [| [p q] rest]; simpl; [split; congruence |].
  split; [reflexivity | discriminate].
Qed.

(** X12. [_on_load_menu] leaves the store and the ticket alone and empties
    the catalog: the inventory list and the category table are empty, both
    tables of the window show no row, every id is unknown (no product, stock
    0, no decrement), and a confirmed checkout of the ticket that was
    pending stops at its first line with 0 available and no stock taken. *)
Theorem load_menu_empties_catalog (lower : string -> string) (g : Gui) :
  inventory (counter (Window._on_load_menu lower g)) = []
  /\ store (counter (Window._on_load_menu lower g)) = store (counter g)
  /\ order (counter (Window._on_load_menu lower g)) = order (counter g)
  /\ (forall k, pid_to_category (Window._on_load_menu lower g) k = None)
  /\ Window.refresh_products (Window._on_load_menu lower g) = Some []
  /\ Window.refresh_stock_display (Window._on_load_menu lower g) = Some []
  /\ (forall pid qty,
         Inventory.get_stock
           (store (counter (Window._on_load_menu lower g)))
           (inventory (counter (Window._on_load_menu lower g))) pid = 0
         /\ Inventory.reduce_stock
              (store (counter (Window._on_load_menu lower g)))
              (inventory (counter (Window._on_load_menu lower g))) pid qty
            = (false, store (counter g)))
  /\ (forall p q rest,
         order (counter g) = (p, q) :: rest ->
         Order.total (store (counter g)) (order (counter g)) <> None ->
         RestaurantApp._on_checkout true (counter (Window._on_load_menu lower g))
         = (counter (Window._on_load_menu lower g),
            [(id (store (counter g) p), q)],
            FailedAtLine 1 (id (store (counter g) p)) q 0)).
Proof.
  repeat (split; [reflexivity |]).
  split; [intros pid qty; split; reflexivity |].
  intros p q rest Horder Htot.
  unfold RestaurantApp._on_checkout, Window._on_load_menu. simpl.
  rewrite Horder in *.
  destruct (Order.total (store (counter g)) ((p, q) :: rest));
    [reflexivity | congruence].
Qed.

Example load_menu_then_checkout :
  RestaurantApp._on_checkout true
    (counter (Window._on_load_menu ascii_lower (sample_gui [(1%nat, 1)])))
  = (counter (Window._on_load_menu ascii_lower (sample_gui [(1%nat, 1)])),
     [(2, 1)], FailedAtLine 1 2 1 0).
Proof. reflexivity. Qed.

Lemma remove_last_item_length (items : list Order.line) :
  (List.length (Order.remove_last_item items) <= List.length items)%nat.
Proof.
  unfold Order.remove_last_item.
  destruct items as [| l rest] eqn:E; [apply le_n |]. rewrite <- E.
  destruct (exists_last (l := items)) as (front & last & ->);
    [congruence |].
  rewrite removelast_last, length_app. apply Nat.le_add_r.
Qed.

Lemma step_empty_inventory (py_int : string -> option Z)
      (lower : string -> string) (g : Gui) (e : event) :
  inventory (counter g) = [] ->
  inventory (counter (Window.step py_int lower g e)) = []
  /\ store (counter (Window.step py_int lower g e)) = store (counter g)
  /\ (List.length (order (counter (Window.step py_int lower g e)))
      <= List.length (order (counter g)))%nat.
Proof.
  intros Hinv. destruct e; simpl.
  - repeat split; auto.
  - repeat split; auto.
  - unfold RestaurantApp.add_to_order. rewrite Hinv.
    destruct (menu_selection (counter g)); simpl; repeat split; auto.
  - repeat split; auto. apply remove_last_item_length.
  - destruct (on_checkout_shape answer (counter g))
      as [[Hsame Hres] | (h & calls & stop & Eloop & Happ & Hres)].
    + destruct (RestaurantApp._on_checkout answer (counter g))
        as [[app' calls] result]. simpl in Hsame, Hres. subst app'.
      destruct result; simpl; repeat split; auto; congruence.
    + rewrite Hinv in Eloop.
      destruct (checkout_loop_empty_inventory (store (counter g))
                  (order (counter g)) 1) as [Hh Hstop].
      rewrite Eloop in Hh, Hstop. simpl in Hh, Hstop. subst h.
      destruct (RestaurantApp._on_checkout answer (counter g))
        as [[app' calls'] result]. simpl in Happ, Hres. subst app'.
      destruct stop as [[k l] |];
        destruct result; simpl; repeat split; auto; apply Nat.le_0_l.
  - unfold Window._on_cancel_order.
    destruct (order (counter g)) eqn:E;
      [simpl; rewrite ?E; repeat split; auto |].
    destruct answer; simpl; rewrite ?E; repeat split; auto.
    apply Nat.le_0_l.
  - repeat split; auto.
  - unfold Window._on_update_stock. rewrite Hinv.
    destruct selected; simpl; repeat split; auto.
  - repeat split; auto.
Qed.

(** X13. Once the inventory list is empty, as it is at start-up and after
    "Load Menu", it stays empty whatever the operator does; from then on no
    stock changes and no line is added to the ticket. *)
Theorem empty_catalog_stays_empty (py_int : string -> option Z)
        (lower : string -> string) (events : list event) :
  forall g,
    inventory (counter g) = [] ->
    inventory (counter (Window.run py_int lower g events)) = []
    /\ store (counter (Window.run py_int lower g events)) = store (counter g)
    /\ (List.length (order (counter (Window.run py_int lower g events)))
        <= List.length (order (counter g)))%nat.
Proof.
  induction events as [| e rest IH]; intros g Hinv; [auto |].
  destruct (step_empty_inventory py_int lower g e Hinv) as (H1 & H2 & H3).
  destruct (IH _ H1) as (I1 & I2 & I3). simpl.
  split; [exact I1 |]. split; [congruence |].
  eapply Nat.le_trans; eassumption.
Qed.

Lemma empty_catalog_stays_empty_witness :
  inventory
    (counter
       (Window.run sample_int ascii_lower
          (Window._on_load_menu ascii_lower (sample_gui [(0%nat, 2)]))
          [SelectMenuRow 1; ClickAdd; ClickUpdateStock (Some 1) (Some 9);
           ClickCheckout true; ClickLoadMenu; ClickAdd]))
  = [].
Proof.
  apply (empty_catalog_stays_empty sample_int ascii_lower
           [SelectMenuRow 1; ClickAdd; ClickUpdateStock (Some 1) (Some 9);
            ClickCheckout true; ClickLoadMenu; ClickAdd]
           (Window._on_load_menu ascii_lower (sample_gui [(0%nat, 2)]))).
  reflexivity.
Defined.

(** ** [_rebuild_categories] *)

Section Categories.

Variable lower : string -> string.

Lemma rebuild_from_absent (h : heap) (products : list ref) (k : Z) :
  forall d,
    (forall r, In r products -> id (h r) <> k) ->
    Window.rebuild_from lower h d products k = d k.
Proof.
  induction products as [| p rest IH]; intros d Habs; simpl; [reflexivity |].
  rewrite IH by (intros r Hr; apply Habs; now right).
  unfold dict_set. destruct (Z.eqb_spec k (id (h p))) as [E | _];
    [| reflexivity].
  now elim (Habs p (or_introl eq_refl)).
Qed.

Lemma rebuild_from_last (h : heap) (pre post : list ref) (p : ref) :
  forall d,
    (forall r, In r post -> id (h r) <> id (h p)) ->
    Window.rebuild_from lower h d (pre ++ p :: post) (id (h p))
    = Some (Window.category_of lower (name (h p))).
Proof.
  induction pre as [| a pre IH]; intros d Hpost; simpl.
  - rewrite rebuild_from_absent by exact Hpost.
    unfold dict_set. now rewrite Z.eqb_refl.
  - now apply IH.
Qed.

(** X14. In the category table an id stands for the category guessed from
    the name of the last product of the list that carries it (while
    [get_product] answers the first such product), and an id that no
    product carries has no entry. *)
Theorem rebuild_categories_last_wins (h : heap) (pre post : list ref)
        (p : ref) :
  (forall r, In r post -> id (h r) <> id (h p)) ->
  Window._rebuild_categories lower h (pre ++ p :: post) (id (h p))
  = Some (Window.category_of lower (name (h p)))
  /\ (forall k, (forall r, In r (pre ++ p :: post) -> id (h r) <> k) ->
                Window._rebuild_categories lower h (pre ++ p :: post) k = None)
  /\ Inventory.get_product h (pre ++ p :: post) (id (h p))
     = match Inventory.get_product h pre (id (h p)) with
       | Some first => Some first
       | None => Some p
       end.
Proof.
  intros Hpost. unfold Window._rebuild_categories.
  split; [now apply rebuild_from_last |].
  split; [intros k Habs; now rewrite rebuild_from_absent |].
  induction pre as [| b pre IH]; simpl.
  - now rewrite Z.eqb_refl.
  - destruct (id (h b) =? id (h p)); [reflexivity | exact IH].
Qed.

End Categories.

Lemma rebuild_categories_last_wins_witness :
  Window._rebuild_categories ascii_lower menu_store [0; 1; 2]%nat 1
  = Some "Desserts"%string
  /\ Inventory.get_product menu_store [0; 1; 2]%nat 1 = Some 0%nat.
Proof.
  destruct (rebuild_categories_last_wins ascii_lower menu_store
              [0; 1]%nat [] 2%nat) as (Hlast & _ & Hfirst).
  - intros r [].
  - split; [exact Hlast | exact Hfirst].
Defined.

(** ** The two tables of the window *)

Lemma distinct_ids_split (h : heap) (pre post : list ref) (p : ref) :
  distinct_ids h (pre ++ p :: post) ->
  forall r, In r pre \/ In r post -> id (h r) <> id (h p).
Proof.
  unfold distinct_ids. rewrite map_app. simpl. intros Hnd r Hr Heq.
  apply NoDup_remove_2 in Hnd. apply Hnd. rewrite <- Heq.
  apply in_or_app.
  destruct Hr as [Hr | Hr]; [left | right];
    now apply (in_map (fun p => id (h p))).
Qed.

Lemma get_product_distinct (h : heap) (products : list ref) (p : ref) :
  distinct_ids h products -> In p products ->
  Inventory.get_product h products (id (h p)) = Some p.
Proof.
  intros Hnd Hin. apply in_split in Hin as (pre & post & ->).
  apply get_product_first; [| reflexivity].
  intros b Hb. apply (distinct_ids_split h pre post p Hnd). now left.
Qed.

Lemma existsb_same_id (h : heap) (rows : list ref) (p : ref) :
  existsb (fun r => id (h r) =? id (h p)) rows = true
  <-> In (id (h p)) (map (fun r => id (h r)) rows).
Proof.
  rewrite existsb_exists, in_map_iff. split.
  - intros (r & Hr & E). apply Z.eqb_eq in E. now exists r.
  - intros (r & E & Hr). exists r. split; [exact Hr | now apply Z.eqb_eq].
Qed.


Lemma insert_rows_Some (h : heap) (ps : list ref) :
  forall rows l,
    Window.insert_rows h rows ps = Some l ->
    l = rows ++ ps /\ (distinct_ids h rows -> distinct_ids h (rows ++ ps)).
Proof.
  induction ps as [| p rest IH]; intros rows l H; simpl in H.
  - injection H as <-. now rewrite app_nil_r.
  - destruct (existsb (fun r => id (h r) =? id (h p)) rows) eqn:E;
      [discriminate |].
    destruct (IH _ _ H) as [-> Hnd]. rewrite <- app_assoc in *.
    split; [reflexivity |]. intros Hrows. apply Hnd.
    unfold distinct_ids in *. rewrite map_app. simpl.
    apply NoDup_app; [exact Hrows | repeat constructor; intros [] |].
    intros a Ha [<- | []].
    apply existsb_same_id in Ha. congruence.
Qed.



Section Menu.

Variable py_int : string -> option Z.
Variable lower : string -> string.


(** X17. With distinct ids, selecting a row the menu shows and pressing
    "Add to Order" with a quantity text that reads as an integer above zero
    appends a line for the very product of that row. *)
Theorem selected_row_adds_its_product (g : Gui) (rows : list ref)
        (p : ref) (qty : Z) :
  distinct_ids (store (counter g)) (inventory (counter g)) ->
  Window.refresh_products g = Some rows ->
  In p rows ->
  py_int (qty_var (counter g)) = Some qty ->
  0 < qty ->
  order (counter
           (Window.step py_int lower
              (Window.step py_int lower g
                 (SelectMenuRow (id (store (counter g) p))))
              ClickAdd))
  = order (counter g) ++ [(p, qty)].
Proof.
  intros Hnd Hrows Hp Hint Hqty.
  unfold Window.refresh_products in Hrows.
  apply insert_rows_Some in Hrows as [-> _]. simpl in Hp.
  apply filter_In in Hp as [Hp _].
  simpl. unfold RestaurantApp.add_to_order. simpl.
  rewrite (get_product_distinct _ _ _ Hnd Hp), Hint.
  destruct (Z.leb_spec qty 0); [lia | reflexivity].
Qed.

End Menu.


Lemma selected_row_adds_its_product_witness :
  order (counter
           (Window.step sample_int ascii_lower
              (Window.step sample_int ascii_lower (sample_gui [])
                 (SelectMenuRow 2))
              ClickAdd))
  = [(1%nat, 2)].
Proof.
  apply (selected_row_adds_its_product sample_int ascii_lower
           (sample_gui []) [0; 1]%nat 1%nat 2).
  - repeat constructor; simpl; intuition discriminate.
  - reflexivity.
  - simpl. auto.
  - reflexivity.
  - lia.
Defined.

(** ** The calls a checkout makes *)

Lemma checkout_loop_calls (products : list ref) (items : list Order.line) :
  forall h idx,
    snd (fst (RestaurantApp.checkout_loop h products items idx))
    = calls_of h (firstn
                    (List.length
                       (snd (fst (RestaurantApp.checkout_loop h products
                                                              items idx))))
                    items).
Proof.
  induction items as [| [p q] rest IH]; intros h idx; simpl; [reflexivity |].
  pose proof (reduce_stock_same_but_stock h products (id (h p)) q) as Hs.
  destruct (Inventory.reduce_stock h products (id (h p)) q) as [ok h1].
  simpl in Hs. destruct ok; simpl; [| reflexivity].
  specialize (IH h1 (S idx)).
  destruct (RestaurantApp.checkout_loop h1 products rest (S idx))
    as [[h2 calls] stop]. simpl in IH |- *.
  unfold calls_of at 1. simpl. f_equal.
  rewrite IH at 1. now apply calls_of_ids.
Qed.

(** X18. However a checkout ends, the calls it makes to [reduce_stock] are
    those of the first lines of the ticket, one per line and in ticket
    order, each with the line's product id and quantity; there are never
    more calls than lines, and none at all unless the ticket is not empty
    and the operator confirmed. *)
Theorem checkout_calls_follow_ticket (confirm : bool) (app : App) :
  snd (fst (RestaurantApp._on_checkout confirm app))
  = calls_of (store app)
      (firstn (List.length (snd (fst (RestaurantApp._on_checkout confirm app))))
              (order app))
  /\ (List.length (snd (fst (RestaurantApp._on_checkout confirm app)))
      <= List.length (order app))%nat
  /\ (confirm = false \/ order app = [] ->
      snd (fst (RestaurantApp._on_checkout confirm app)) = []).
Proof.
  assert (Hcalls : snd (fst (RestaurantApp._on_checkout confirm app)) = []
                   \/ snd (fst (RestaurantApp._on_checkout confirm app))
                      = snd (fst (RestaurantApp.checkout_loop
                                    (store app) (inventory app) (order app) 1))).
  { unfold RestaurantApp._on_checkout.
    destruct (order app) as [| l rest]; [now left |].
    destruct (Order.total (store app) (l :: rest)); [| now left].
    destruct confirm; simpl negb; cbv iota; [| now left]. right.
    destruct (RestaurantApp.checkout_loop (store app) (inventory app)
                (l :: rest) 1) as [[h calls] stop].
    now destruct stop as [[k [p q]] |]. }
  assert (Hprefix : snd (fst (RestaurantApp._on_checkout confirm app))
                    = calls_of (store app)
                        (firstn (List.length
                                   (snd (fst (RestaurantApp._on_checkout
                                                confirm app))))
                                (order app))).
  { destruct Hcalls as [-> | ->]; [reflexivity | apply checkout_loop_calls]. }
  split; [exact Hprefix |]. split.
  - rewrite Hprefix at 1. unfold calls_of.
    rewrite length_map, length_firstn. apply Nat.le_min_r.
  - intros [-> | Hempty]; unfold RestaurantApp._on_checkout.
    + destruct (order app); [reflexivity |].
      now destruct (Order.total _ _).
    + now rewrite Hempty.
Qed.
